(** * electron-reload-esm: a shallow embedding of [src/main.js]

    The module watches file-system paths and, on a change, either reloads
    every open browser window (soft reset) or respawns the whole Electron
    process (hard reset).  The embedding keeps the shape of the source:

    - [JS] holds the few array and string primitives the source calls
      ([indexOf], [splice], [concat], truthiness);
    - [Regex] is a small backtracking matcher, enough to run the
      [ignoredPaths] literal of line 9;
    - [Chokidar] models the watcher objects the source drives
      ([watch], [add], [close], [on], [once], and the emission of
      ['change']);
    - the section [Main] is [main.js] itself: [createHardresetHandler],
      [electronReload], the listeners it installs, and the delivery of
      host and file-system events to them. *)

From Stdlib Require Import List String Ascii Bool ZArith Lia.
Import ListNotations.
Local Open Scope string_scope.
Local Open Scope list_scope.
Local Open Scope Z_scope.

(* ------------------------------------------------------------------ *)
(** ** JavaScript primitives *)

Module JS.

(** [Array.prototype.indexOf] and [Array.prototype.splice] over a list,
    with the index arithmetic of ECMA-262 written out on [Z]. *)
Section Arrays.
Context {A : Type} (same : A -> A -> bool).

Fixpoint indexOf_from (i : Z) (x : A) (l : list A) : Z :=
  match l with
  | [] => -1
  | y :: l' => if same y x then i else indexOf_from (i + 1) x l'
  end.

(** [l.indexOf(x)]: the first index holding [x], [-1] when there is none. *)
Definition indexOf (x : A) (l : list A) : Z := indexOf_from 0 x l.

(** [l.splice(start, deleteCount)], as the array left behind.  A negative
    [start] counts from the end of the array. *)
Definition splice (start deleteCount : Z) (l : list A) : list A :=
  let len := Z.of_nat (List.length l) in
  let actualStart :=
    if start <? 0 then Z.max (len + start) 0 else Z.min start len in
  let actualDeleteCount := Z.min (Z.max deleteCount 0) (len - actualStart) in
  firstn (Z.to_nat actualStart) l
    ++ skipn (Z.to_nat (actualStart + actualDeleteCount)) l.

End Arrays.

(** [a.concat(b)] on two arrays. *)
Definition concat {A : Type} (a b : list A) : list A := a ++ b.

(** [v || d] where [v] is [undefined] or an array (arrays are truthy). *)
Definition or_else {A : Type} (v : option A) (d : A) : A :=
  match v with Some a => a | None => d end.

(** Truthiness of a value that is [undefined] or a string: only a
    non-empty string is truthy. *)
Definition truthy (v : option string) : bool :=
  match v with
  | None => false
  | Some s => negb (String.eqb s "")
  end.

(** [v === 'lit'] for [v] undefined or a string. *)
Definition strict_eq_str (v : option string) (lit : string) : bool :=
  match v with
  | None => false
  | Some s => String.eqb s lit
  end.

(** [v === true] for [v] undefined or a boolean. *)
Definition strict_eq_true (v : option bool) : bool :=
  match v with
  | Some true => true
  | _ => false
  end.

End JS.

(* ------------------------------------------------------------------ *)
(** ** Regular expressions *)

Module Regex.

(** The fragment of the regular-expression syntax that line 9 uses:
    literal text, a character class, sequencing and alternation. *)
Inductive regex : Type :=
| Lit (s : string)
| Class (cs : list ascii)
| Cat (r1 r2 : regex)
| Alt (r1 r2 : regex).

(** [strip_prefix l s] removes [l] from the front of [s]. *)
Fixpoint strip_prefix (l s : string) : option string :=
  match l with
  | EmptyString => Some s
  | String a l' =>
      match s with
      | EmptyString => None
      | String b s' => if Ascii.eqb a b then strip_prefix l' s' else None
      end
  end.

(** All the ways [r] matches a prefix of [s]: the list of what is left of
    [s] after each match. *)
Fixpoint matches_at (r : regex) (s : string) : list string :=
  match r with
  | Lit l =>
      match strip_prefix l s with
      | Some rest => [rest]
      | None => []
      end
  | Class cs =>
      match s with
      | EmptyString => []
      | String c rest => if existsb (Ascii.eqb c) cs then [rest] else []
      end
  | Cat r1 r2 => flat_map (matches_at r2) (matches_at r1 s)
  | Alt r1 r2 => matches_at r1 s ++ matches_at r2 s
  end.

Definition matches_here (r : regex) (s : string) : bool :=
  match matches_at r s with
  | [] => false
  | _ :: _ => true
  end.

(** [r.test(s)] for an unanchored expression without flags: a match may
    start at any offset. *)
Fixpoint test (r : regex) (s : string) : bool :=
  matches_here r s
  || match s with
     | EmptyString => false
     | String _ rest => test r rest
     end.

End Regex.

(** The two path separators of the character class [[/\\]]. *)
Definition slash : ascii := "/"%char.
Definition backslash : ascii := "092"%char.

(** Line 9: [const ignoredPaths = /node_modules|[/\\]\./]. *)
Definition ignoredPaths : Regex.regex :=
  Regex.Alt (Regex.Lit "node_modules")
            (Regex.Cat (Regex.Class [slash; backslash]) (Regex.Lit ".")).

(* ------------------------------------------------------------------ *)
(** ** Regular expressions with a capturing group *)

Module Capture.

(** The syntax line 18 needs beyond [Regex]: a class of characters given
    by its test, the greedy repetition of a class (the star), the starred
    dot, and one capturing group.  One or more of a class is the class
    followed by its star.

    A text is a sequence of bytes, read as UTF-8.  The characters the
    expression of line 18 names (parentheses, colon, digits) take one
    byte each and never occur inside a longer character. *)
Inductive pattern : Type :=
| Chr (c : ascii)
| Cls (p : ascii -> bool)
| Many (p : ascii -> bool)
| Dots
| Seq (a b : pattern)
| Group (a : pattern).

(** The ways the star of a class can match at the front of [s], longest
    first, as what is left of [s]. *)
Fixpoint many (p : ascii -> bool) (s : string) : list string :=
  match s with
  | EmptyString => [EmptyString]
  | String c rest => (if p c then many p rest else []) ++ [s]
  end.

(** Whether a line terminator starts at the front of [s].  The dot of
    the language matches no line terminator, and those are LF, CR,
    U+2028 and U+2029; the last two are the bytes 226 128 168 and
    226 128 169. *)
Definition line_terminator_at (s : string) : bool :=
  match s with
  | EmptyString => false
  | String c rest =>
      Ascii.eqb c "010"%char || Ascii.eqb c "013"%char
      || (Ascii.eqb c "226"%char
          && match rest with
             | String d (String e _) =>
                 Ascii.eqb d "128"%char
                 && (Ascii.eqb e "168"%char || Ascii.eqb e "169"%char)
             | _ => false
             end)
  end.

(** The ways the starred dot can match at the front of [s], longest
    first, as what is left of [s]: it goes on byte by byte and stops
    where a line terminator starts.  What follows the starred dot in
    line 18 is a colon, which no byte inside a longer character can be,
    so the stops in the middle of a character never give a match. *)
Fixpoint dots (s : string) : list string :=
  match s with
  | EmptyString => [EmptyString]
  | String c rest => (if line_terminator_at s then [] else dots rest) ++ [s]
  end.

(** Whether no line terminator starts anywhere in [s]. *)
Fixpoint no_line_terminator (s : string) : bool :=
  match s with
  | EmptyString => true
  | String _ rest => negb (line_terminator_at s) && no_line_terminator rest
  end.

(** The text that was consumed when [rest] is left of [s]. *)
Definition consumed (s rest : string) : string :=
  String.substring 0 (String.length s - String.length rest)%nat s.

(** All the ways [r] matches at the front of [s], in the order in which a
    backtracking matcher tries them: for each, the text of the group
    ([None] when no group took part) and what is left of [s]. *)
Fixpoint run (r : pattern) (s : string) : list (option string * string) :=
  match r with
  | Chr c =>
      match s with
      | EmptyString => []
      | String d rest => if Ascii.eqb c d then [(None, rest)] else []
      end
  | Cls p =>
      match s with
      | EmptyString => []
      | String d rest => if p d then [(None, rest)] else []
      end
  | Many p => map (fun rest => (None, rest)) (many p s)
  | Dots => map (fun rest => (None, rest)) (dots s)
  | Seq a b =>
      flat_map
        (fun m1 =>
           map (fun m2 =>
                  (match fst m2 with Some g => Some g | None => fst m1 end,
                   snd m2))
               (run b (snd m1)))
        (run a s)
  | Group a => map (fun m => (Some (consumed s (snd m)), snd m)) (run a s)
  end.

(** [s.match(r)] for an expression without flags: the first match at the
    leftmost offset that has one.  [None] is [null]; otherwise the value
    is element [1] of the result, the text of the group. *)
Fixpoint exec (r : pattern) (s : string) : option (option string) :=
  match run r s with
  | m :: _ => Some (fst m)
  | [] =>
      match s with
      | EmptyString => None
      | String _ rest => exec r rest
      end
  end.

(** Whether a pattern has no group in it. *)
Fixpoint groupless (r : pattern) : bool :=
  match r with
  | Group _ => false
  | Seq a b => groupless a && groupless b
  | _ => true
  end.

(** The class of the decimal digits. *)
Definition digit (c : ascii) : bool :=
  (48 <=? nat_of_ascii c)%nat && (nat_of_ascii c <=? 57)%nat.

End Capture.

(** The expression of line 18: an opening parenthesis, a group holding
    any run of characters, then twice a colon with one digit or more, and
    a closing parenthesis. *)
Definition position : Capture.pattern :=
  Capture.Seq (Capture.Chr ":"%char)
    (Capture.Seq (Capture.Cls Capture.digit) (Capture.Many Capture.digit)).

(** The end of a frame: line, column and the closing parenthesis. *)
Definition line_and_column : Capture.pattern :=
  Capture.Seq position (Capture.Seq position (Capture.Chr ")"%char)).

Definition callerFrame : Capture.pattern :=
  Capture.Seq (Capture.Chr "("%char)
    (Capture.Seq (Capture.Group Capture.Dots) line_and_column).

(* ------------------------------------------------------------------ *)
(** ** The file watcher *)

Module Chokidar.

(** One entry of the [ignored] option.  Chokidar hands the entries to
    anymatch, which takes a regular expression, a path string or a
    predicate on paths. *)
Inductive matcher : Type :=
| MRegex (r : Regex.regex)
| MPath (p : string)
| MFun (f : string -> bool).

Definition matcher_matches (m : matcher) (p : string) : bool :=
  match m with
  | MRegex r => Regex.test r p
  | MPath q => String.eqb q p
  | MFun f => f p
  end.

(** A path is ignored as soon as one entry matches it. *)
Definition anymatch (ms : list matcher) (p : string) : bool :=
  existsb (fun m => matcher_matches m p) ms.

(** What the [ignored] key of an options object may hold. *)
Inductive ignored_value : Type :=
| IUndefined
| IOne (m : matcher)
| IArray (ms : list matcher).

Definition arrify (v : ignored_value) : list matcher :=
  match v with
  | IUndefined => []
  | IOne m => [m]
  | IArray ms => ms
  end.

Section Watcher.
(** [H] is the type of the listeners' callbacks. *)
Context {H : Type}.

Record listener : Type := mkListener {
  callback : H;
  is_once : bool
}.

(** A watcher: the patterns it was asked to watch, its ignore list,
    whether [close()] was called, and its ['change'] listeners in the
    order of their registration. *)
Record watcher : Type := mkWatcher {
  paths : list string;
  ignored : list matcher;
  closed : bool;
  listeners : list listener
}.

(** [chokidar.watch(paths, { ignored })] *)
Definition watch (ps : list string) (ign : ignored_value) : watcher :=
  {| paths := ps; ignored := arrify ign; closed := false; listeners := [] |}.

(** [w.add(paths)] *)
Definition add (ps : list string) (w : watcher) : watcher :=
  {| paths := paths w ++ ps; ignored := ignored w;
     closed := closed w; listeners := listeners w |}.

(** [w.close()] *)
Definition close (w : watcher) : watcher :=
  {| paths := paths w; ignored := ignored w;
     closed := true; listeners := listeners w |}.

(** [w.on('change', h)] *)
Definition on (h : H) (w : watcher) : watcher :=
  {| paths := paths w; ignored := ignored w; closed := closed w;
     listeners := listeners w ++ [mkListener h false] |}.

(** [w.once('change', h)] *)
Definition once (h : H) (w : watcher) : watcher :=
  {| paths := paths w; ignored := ignored w; closed := closed w;
     listeners := listeners w ++ [mkListener h true] |}.

(** The emission of ['change']: a closed watcher emits nothing; an open
    one calls every listener, in registration order, and drops the
    one-shot listeners it has called. *)
Definition emit_change (w : watcher) : list H * watcher :=
  if closed w then ([], w)
  else (map callback (listeners w),
        {| paths := paths w; ignored := ignored w; closed := closed w;
           listeners := filter (fun l => negb (is_once l)) (listeners w) |}).

(** Whether a change of the file [p] makes [w] emit ['change']: the
    watcher is open, one of its patterns covers [p], and [p] is not
    ignored.  [covers pattern p] is the glob matching of the watcher. *)
Definition tracks (covers : string -> string -> bool)
                  (w : watcher) (p : string) : bool :=
  negb (closed w)
  && existsb (fun pat => covers pat p) (paths w)
  && negb (anymatch (ignored w) p).

End Watcher.

(** A plain instance of the glob matching, for running the model on
    examples: a pattern that names a file or a directory covers that path
    and the paths below it, and ["."] covers every path. *)
Definition covers_path (pattern p : string) : bool :=
  String.eqb pattern "." || String.eqb pattern p
  || String.prefix (String.append pattern "/") p.

Arguments listener : clear implicits.
Arguments watcher : clear implicits.

End Chokidar.

(* ------------------------------------------------------------------ *)
(** ** The data of main.js *)

(** A [BrowserWindow] is an opaque object of the host; the source only
    compares windows by identity, which the number stands for. *)
Definition window : Type := nat.
Definition same_window : window -> window -> bool := Nat.eqb.

(** What the program does to its collaborators when a handler runs. *)
Inductive effect : Type :=
| ReloadIgnoringCache (bw : window)
| Spawn (command : option string) (args : list string)
        (detached : bool) (stdio : string)
| Unref
| AppExit
| AppQuit.

(** The [options] argument of [electronReload].  A field is [None] when
    the object has no such key; the remaining keys are handed to the
    watcher untouched and play no part here. *)
Record Options : Type := mkOptions {
  electron : option string;
  hardResetMethod : option string;
  electronArgv : option (list string);
  appArgv : option (list string);
  forceHardReset : option bool;
  ignored : option Chokidar.ignored_value
}.

(** [options = {}] *)
Definition no_options : Options :=
  mkOptions None None None None None None.

(** [Object.assign({ ignored: dflt }, options).ignored]: an own key of
    [options] overwrites the key of the target. *)
Definition Object_assign_ignored (dflt : Chokidar.ignored_value)
                                 (options : Options) : Chokidar.ignored_value :=
  match ignored options with
  | Some v => v
  | None => dflt
  end.

(** The two callbacks given to the watchers, as closures over the values
    they capture.  [softResetHandler] captures the array
    [browserWindows], which lives in the session below. *)
Inductive handler : Type :=
| softResetHandler
| hardResetClosure (eXecutable hardResetMethod : option string)
                   (eArgv aArgv : option (list string)).

(** Lines 40-41: [createHardresetHandler] only builds the closure. *)
Definition createHardresetHandler (eXecutable hardResetMethod : option string)
    (eArgv aArgv : option (list string)) : handler :=
  hardResetClosure eXecutable hardResetMethod eArgv aArgv.

(** The two watcher variables of [electronReload]. *)
Inductive subscription : Type :=
| the_watcher
| the_hardWatcher.

(** The calls [electronReload] makes on its collaborators, logged in the
    order in which they are made. *)
Inductive call : Type :=
| call_watch (who : subscription) (ps : list string)
             (ign : Chokidar.ignored_value)
| call_app_on_created
| call_on_change (who : subscription) (h : handler)
| call_existsSync (p : option string)
| call_add (who : subscription) (ps : list string)
| call_close (who : subscription)
| call_once_change (who : subscription) (h : handler).

(** Everything one call of [electronReload] owns. *)
Record session : Type := mkSession {
  browserWindows : list window;
  watcher : option (Chokidar.watcher handler);
  hardWatcher : option (Chokidar.watcher handler);
  app_listening : bool;          (* app.on('browser-window-created', ...) *)
  closed_listeners : list window; (* one bw.on('closed', ...) per entry *)
  calls : list call;
  effects : list effect
}.

Definition fresh : session :=
  mkSession [] None None false [] [] [].

Definition get_watcher (who : subscription) (s : session)
  : option (Chokidar.watcher handler) :=
  match who with
  | the_watcher => watcher s
  | the_hardWatcher => hardWatcher s
  end.

Definition set_watcher (who : subscription)
    (w : option (Chokidar.watcher handler)) (s : session) : session :=
  match who with
  | the_watcher =>
      mkSession (browserWindows s) w (hardWatcher s) (app_listening s)
                (closed_listeners s) (calls s) (effects s)
  | the_hardWatcher =>
      mkSession (browserWindows s) (watcher s) w (app_listening s)
                (closed_listeners s) (calls s) (effects s)
  end.

Definition set_browserWindows (l : list window) (s : session) : session :=
  mkSession l (watcher s) (hardWatcher s) (app_listening s)
            (closed_listeners s) (calls s) (effects s).

Definition perform (es : list effect) (s : session) : session :=
  mkSession (browserWindows s) (watcher s) (hardWatcher s) (app_listening s)
            (closed_listeners s) (calls s) (effects s ++ es).

Definition record_call (c : call) (s : session) : session :=
  mkSession (browserWindows s) (watcher s) (hardWatcher s) (app_listening s)
            (closed_listeners s) (calls s ++ [c]) (effects s).

(** *** Statements that may throw *)

Inductive completion (A : Type) : Type :=
| Normal (a : A)
| Thrown (msg : string).
Arguments Normal {A} a.
Arguments Thrown {A} msg.

Definition M (A : Type) : Type := session -> session * completion A.

Definition ret {A : Type} (a : A) : M A := fun s => (s, Normal a).

Definition throw {A : Type} (msg : string) : M A := fun s => (s, Thrown msg).

Definition bind {A B : Type} (m : M A) (k : A -> M B) : M B :=
  fun s =>
    match m s with
    | (s', Normal a) => k a s'
    | (s', Thrown msg) => (s', Thrown msg)
    end.

Notation "x <- m ;; k" := (bind m (fun x => k))
  (at level 61, m at next level, right associativity).
Notation "m ;; k" := (bind m (fun _ => k))
  (at level 61, right associativity).

(** Guarded statement: [if (c) { body }]. *)
Definition when (c : bool) (body : M unit) : M unit :=
  if c then body else ret tt.

(** A method call on one of the two watchers. *)
Definition on_watcher (who : subscription)
    (f : Chokidar.watcher handler -> Chokidar.watcher handler)
    (c : call) : M unit :=
  fun s =>
    (record_call c (set_watcher who (option_map f (get_watcher who s)) s),
     Normal tt).

Definition chokidar_watch (who : subscription) (ps : list string)
    (ign : Chokidar.ignored_value) : M unit :=
  fun s =>
    (record_call (call_watch who ps ign)
       (set_watcher who (Some (Chokidar.watch ps ign)) s),
     Normal tt).

Definition watcher_on (who : subscription) (h : handler) : M unit :=
  on_watcher who (Chokidar.on h) (call_on_change who h).

Definition watcher_once (who : subscription) (h : handler) : M unit :=
  on_watcher who (Chokidar.once h) (call_once_change who h).

Definition watcher_add (who : subscription) (ps : list string) : M unit :=
  on_watcher who (Chokidar.add ps) (call_add who ps).

Definition watcher_close (who : subscription) : M unit :=
  on_watcher who Chokidar.close (call_close who).

(** Lines 80-88 install the listener; its body is [onWindowCreated]. *)
Definition app_on_browser_window_created : M unit :=
  fun s =>
    (record_call call_app_on_created
       (mkSession (browserWindows s) (watcher s) (hardWatcher s) true
                  (closed_listeners s) (calls s) (effects s)),
     Normal tt).

(* ------------------------------------------------------------------ *)
(** ** The main file (lines 14-29) *)

Definition newline : ascii := "010"%char.

(** [s.split('\n')] *)
Fixpoint split_lines (s : string) : list string :=
  match s with
  | EmptyString => [EmptyString]
  | String c rest =>
      if Ascii.eqb c newline then EmptyString :: split_lines rest
      else match split_lines rest with
           | [] => [String c EmptyString]
           | line :: more => String c line :: more
           end
  end.

(** Lines 14-27.  [stack] is [new Error().stack], [argv1] is
    [process.argv[1]] and [mainModule_filename] is
    [process.mainModule?.filename]; [None] stands for [undefined].
    Reading [.match] off the missing third line is a [TypeError]. *)
Definition getMainFilePath (stack : string)
    (argv1 mainModule_filename : option string) : completion (option string) :=
  match nth_error (split_lines stack) 2 with
  | None => Thrown "TypeError: Cannot read properties of undefined (reading 'match')"
  | Some line =>
      let callerFile :=
        match Capture.exec callerFrame line with
        | None => None
        | Some group1 => group1
        end in
      if negb (JS.truthy callerFile)
      then Normal (if JS.truthy argv1 then argv1 else mainModule_filename)
      else Normal callerFile
  end.

(** The number of line breaks in a text. *)
Fixpoint line_breaks (s : string) : nat :=
  match s with
  | EmptyString => 0%nat
  | String c rest =>
      ((if Ascii.eqb c newline then 1 else 0) + line_breaks rest)%nat
  end.

(** Whether every character of a text passes a test. *)
Fixpoint all_chars (p : ascii -> bool) (s : string) : bool :=
  match s with
  | EmptyString => true
  | String c rest => p c && all_chars p rest
  end.

Definition not_paren (c : ascii) : bool := negb (Ascii.eqb c "("%char).

Definition starts_with_colon (s : string) : bool :=
  match s with
  | String c _ => Ascii.eqb c ":"%char
  | EmptyString => false
  end.

(* ------------------------------------------------------------------ *)
(** ** main.js *)

Section Main.

(** Line 8: [appPath = app.getAppPath()]; line 29: [mainFile]; both are
    fixed when the module is loaded. *)
Variable appPath : string.
Variable mainFile : string.
(** [fs.existsSync] on the file system of the run. *)
Variable existsSync : string -> bool.
(** The glob matching of the watcher: [covers pattern path]. *)
Variable covers : string -> string -> bool.

Definition fs_existsSync (p : option string) : M bool :=
  fun s =>
    (record_call (call_existsSync p) s,
     Normal match p with Some f => existsSync f | None => false end).

(** Lines 41-62: the body of the closure [createHardresetHandler]
    returns. *)
Definition hardReset (eXecutable hardResetMethod : option string)
    (eArgv aArgv : option (list string)) : list effect :=
  let args :=
    JS.concat (JS.concat (JS.or_else eArgv []) [appPath])
              (JS.or_else aArgv []) in
  [ Spawn eXecutable args true "inherit";
    Unref;
    if JS.strict_eq_str hardResetMethod "exit" then AppExit else AppQuit ].

(** Line 70: [browserWindows.forEach(bw => bw.webContents.reloadIgnoringCache())] *)
Definition softReset (s : session) : list effect :=
  map ReloadIgnoringCache (browserWindows s).

Definition call_handler (h : handler) (s : session) : session :=
  match h with
  | softResetHandler => perform (softReset s) s
  | hardResetClosure e m ea aa => perform (hardReset e m ea aa) s
  end.

(** Lines 84-87, the listener of ['closed'] on the window [bw]. *)
Definition onWindowClosed (bw : window) (s : session) : session :=
  let i := JS.indexOf same_window bw (browserWindows s) in
  set_browserWindows (JS.splice i 1 (browserWindows s)) s.

(** Lines 80-88, the listener of ['browser-window-created']. *)
Definition onWindowCreated (bw : window) (s : session) : session :=
  mkSession (browserWindows s ++ [bw]) (watcher s) (hardWatcher s)
            (app_listening s) (closed_listeners s ++ [bw])
            (calls s) (effects s).

(** Line 66: [Object.assign({ ignored: [ignoredPaths, mainFile] }, options)],
    as far as the watcher reads it. *)
Definition watcher_options (options : Options) : Chokidar.ignored_value :=
  Object_assign_ignored
    (Chokidar.IArray [Chokidar.MRegex ignoredPaths; Chokidar.MPath mainFile])
    options.

(** Line 100: [Object.assign({ ignored: [ignoredPaths] }, options)]. *)
Definition hardWatcher_options (options : Options) : Chokidar.ignored_value :=
  Object_assign_ignored (Chokidar.IArray [Chokidar.MRegex ignoredPaths]) options.

(** Lines 73-77: the hard-reset closure of this call. *)
Definition hardResetHandler (options : Options) : handler :=
  createHardresetHandler (electron options) (hardResetMethod options)
                         (electronArgv options) (appArgv options).

(** What that closure does when it is called. *)
Definition respawn (options : Options) : list effect :=
  hardReset (electron options) (hardResetMethod options)
            (electronArgv options) (appArgv options).

(** Lines 64-111. *)
Definition electronReload (glob : list string) (options : Options) : M unit :=
  chokidar_watch the_watcher glob (watcher_options options) ;;
  let eXecutable := electron options in
  app_on_browser_window_created ;;
  watcher_on the_watcher softResetHandler ;;
  when (JS.truthy eXecutable) (
    found <- fs_existsSync eXecutable ;;
    when (negb found)
      (throw "Provided electron executable cannot be found or is not executable!") ;;
    chokidar_watch the_hardWatcher [mainFile] (hardWatcher_options options) ;;
    when (JS.strict_eq_true (forceHardReset options)) (
      watcher_add the_hardWatcher glob ;;
      watcher_close the_watcher) ;;
    watcher_once the_hardWatcher (hardResetHandler options)).

(** The session one call leaves behind, and how the call completed. *)
Definition start (glob : list string) (options : Options)
  : session * completion unit :=
  electronReload glob options fresh.

(** *** Events *)

(** What the host and the watchers send to the listeners installed
    above.  [Change who p] is one emission of ['change'] by a watcher;
    [FileChanged p] is a change on disk, which every watcher that tracks
    [p] turns into an emission. *)
Inductive event : Type :=
| BrowserWindowCreated (bw : window)
| Closed (bw : window)
| Change (who : subscription) (p : string)
| FileChanged (p : string).

Definition emit (who : subscription) (s : session) : session :=
  match get_watcher who s with
  | None => s
  | Some w =>
      let (hs, w') := Chokidar.emit_change w in
      fold_left (fun acc h => call_handler h acc) hs
                (set_watcher who (Some w') s)
  end.

Definition tracked_by (who : subscription) (s : session) (p : string) : bool :=
  match get_watcher who s with
  | None => false
  | Some w => Chokidar.tracks covers w p
  end.

Definition notify (who : subscription) (p : string) (s : session) : session :=
  if tracked_by who s p then emit who s else s.

Definition deliver (e : event) (s : session) : session :=
  match e with
  | BrowserWindowCreated bw =>
      if app_listening s then onWindowCreated bw s else s
  | Closed bw =>
      fold_left (fun acc b => onWindowClosed b acc)
                (filter (same_window bw) (closed_listeners s)) s
  | Change who _ => emit who s
  | FileChanged p => notify the_hardWatcher p (notify the_watcher p s)
  end.

Definition run (es : list event) (s : session) : session :=
  fold_left (fun acc e => deliver e acc) es s.

(** *** Reading a trace *)

Definition is_reload (e : effect) : bool :=
  match e with ReloadIgnoringCache _ => true | _ => false end.

Definition is_spawn (e : effect) : bool :=
  match e with Spawn _ _ _ _ => true | _ => false end.

(** The effects of the hard-reset path: everything but a reload. *)
Definition is_hard (e : effect) : bool := negb (is_reload e).

Definition same_subscription (a b : subscription) : bool :=
  match a, b with
  | the_watcher, the_watcher => true
  | the_hardWatcher, the_hardWatcher => true
  | _, _ => false
  end.

Definition is_open (who : subscription) (s : session) : bool :=
  match get_watcher who s with
  | None => false
  | Some w => negb (Chokidar.closed w)
  end.

(** Whether the event [e] makes the watcher [who] of [s] call its
    listeners. *)
Definition fires (who : subscription) (s : session) (e : event) : bool :=
  match e with
  | Change who' _ => same_subscription who who' && is_open who s
  | FileChanged p => tracked_by who s p
  | _ => false
  end.

(** What a handler adds to the trace when the array holds [bws]. *)
Definition output (bws : list window) (h : handler) : list effect :=
  match h with
  | softResetHandler => map ReloadIgnoringCache bws
  | hardResetClosure e m ea aa => hardReset e m ea aa
  end.

(** What [close], [add] and the emissions leave of a watcher's setup. *)
Definition config (w : Chokidar.watcher handler)
  : list string * list Chokidar.matcher * bool :=
  (Chokidar.paths w, Chokidar.ignored w, Chokidar.closed w).

(** The sessions a completed [electronReload] can be in: the general
    watcher [wg] with its listeners untouched, and either no hard
    watcher ([mode = None]) or the hard watcher [wh] whose one-shot
    listener [h] is still armed ([Some true]) or already spent
    ([Some false]). *)
Definition shape (wg wh : Chokidar.watcher handler) (h : handler)
    (mode : option bool) (s : session) : Prop :=
  watcher s = Some wg /\
  hardWatcher s =
    match mode with
    | None => None
    | Some armed =>
        Some (Chokidar.mkWatcher (Chokidar.paths wh) (Chokidar.ignored wh)
                false
                (if armed then [Chokidar.mkListener h true] else []))
    end.

(** The ignore list a watcher ended up with. *)
Definition ignore_list (who : subscription) (s : session)
  : list Chokidar.matcher :=
  match get_watcher who s with
  | None => []
  | Some w => Chokidar.ignored w
  end.

(** *** The words of the specification about paths

    The specification speaks of path segments; the source only has the
    regular expression.  These definitions follow the specification's
    words, to be compared with [ignoredPaths]. *)

Definition is_separator (c : ascii) : bool :=
  Ascii.eqb c slash || Ascii.eqb c backslash.

(** The segments of a path: the runs of characters between separators. *)
Fixpoint segments (p : string) : list string :=
  match p with
  | EmptyString => [EmptyString]
  | String c rest =>
      if is_separator c then EmptyString :: segments rest
      else match segments rest with
           | [] => [String c EmptyString]
           | seg :: more => String c seg :: more
           end
  end.

Definition dot_prefixed (seg : string) : bool :=
  match seg with
  | String c _ => Ascii.eqb c "."%char
  | EmptyString => false
  end.

(** "A path segment named [name]". *)
Definition has_segment (name p : string) : bool :=
  existsb (String.eqb name) (segments p).

(** "Any dot-prefixed segment". *)
Definition has_dot_segment (p : string) : bool :=
  existsb dot_prefixed (segments p).

(** A dot-prefixed segment that follows a separator, that is, any but
    a leading one. *)
Definition has_inner_dot_segment (p : string) : bool :=
  existsb dot_prefixed (tl (segments p)).

(** *** The windows of the host

    What the host would call the open windows after a history: a window
    is added when it is created and leaves when it is closed. *)

Definition without (bw : window) (l : list window) : list window :=
  filter (fun x => negb (same_window bw x)) l.

Fixpoint live (l : list window) (es : list event) : list window :=
  match es with
  | [] => l
  | BrowserWindowCreated bw :: more => live (l ++ [bw]) more
  | Closed bw :: more => live (without bw l) more
  | _ :: more => live l more
  end.

(** A history in which the host creates no window twice and closes only
    windows that are open; [seen] are the windows created so far and [l]
    the open ones. *)
Fixpoint polite (seen l : list window) (es : list event) : bool :=
  match es with
  | [] => true
  | BrowserWindowCreated bw :: more =>
      negb (existsb (same_window bw) seen)
      && polite (seen ++ [bw]) (l ++ [bw]) more
  | Closed bw :: more =>
      existsb (same_window bw) l && polite seen (without bw l) more
  | _ :: more => polite seen l more
  end.

Definition is_window_event (e : event) : bool :=
  match e with
  | BrowserWindowCreated _ | Closed _ => true
  | _ => false
  end.

(* ------------------------------------------------------------------ *)
(** ** Arrays *)

Lemma indexOf_from_absent (x : window) (l : list window) (i : Z) :
  ~ In x l -> JS.indexOf_from same_window i x l = -1.
Proof.
  revert i; induction l as [|y l IH]; intros i Hnot; simpl.
  - reflexivity.
  - destruct (same_window y x) eqn:E.
    + apply Nat.eqb_eq in E. exfalso. apply Hnot. left. exact E.
    + apply IH. intro Hin. apply Hnot. right. exact Hin.
Qed.

Lemma indexOf_from_first (x : window) (l1 l2 : list window) (i : Z) :
  ~ In x l1 ->
  JS.indexOf_from same_window i x (l1 ++ x :: l2)
  = i + Z.of_nat (List.length l1).
Proof.
  revert i. induction l1 as [|y l1 IH]; intros i Hnot;
    cbn [app JS.indexOf_from List.length].
  - unfold same_window. rewrite Nat.eqb_refl. lia.
  - destruct (same_window y x) eqn:E.
    + apply Nat.eqb_eq in E. exfalso. apply Hnot. left. exact E.
    + rewrite IH by (intro H; apply Hnot; right; exact H). lia.
Qed.

(** [splice(i, 1)] at the index of an element removes that element. *)
Lemma splice_at (l1 l2 : list window) (x : window) :
  JS.splice (Z.of_nat (List.length l1)) 1 (l1 ++ x :: l2) = l1 ++ l2.
Proof.
  unfold JS.splice.
  assert (Hlen : Z.of_nat (List.length (l1 ++ x :: l2))
                 = Z.of_nat (List.length l1) + 1 + Z.of_nat (List.length l2)).
  { rewrite length_app. cbn [List.length]. lia. }
  rewrite Hlen.
  destruct (Z.of_nat (List.length l1) <? 0) eqn:E; [lia|].
  replace (Z.min (Z.of_nat (List.length l1)) _)
    with (Z.of_nat (List.length l1)) by lia.
  replace (Z.of_nat (List.length l1) + Z.min (Z.max 1 0) _)
    with (Z.of_nat (S (List.length l1))) by lia.
  rewrite !Nat2Z.id.
  rewrite firstn_app, firstn_all, Nat.sub_diag. cbn [firstn].
  rewrite app_nil_r. f_equal.
  change (x :: l2) with ([x] ++ l2). rewrite app_assoc.
  rewrite skipn_app.
  replace (S (List.length l1)) with (List.length (l1 ++ [x]))
    by (rewrite length_app; cbn; lia).
  rewrite skipn_all, Nat.sub_diag. reflexivity.
Qed.

(** [splice(-1, 1)] drops the last element. *)
Lemma splice_minus_one (l : list window) :
  JS.splice (-1) 1 l = removelast l.
Proof.
  unfold JS.splice. cbn [Z.ltb Z.compare].
  destruct l as [|a l _] using rev_ind.
  - reflexivity.
  - rewrite removelast_last.
    assert (Hlen : Z.of_nat (List.length (l ++ [a]))
                   = Z.of_nat (List.length l) + 1).
    { rewrite length_app. cbn [List.length]. lia. }
    rewrite Hlen.
    replace (Z.max (Z.of_nat (List.length l) + 1 + -1) 0)
      with (Z.of_nat (List.length l)) by lia.
    replace (Z.of_nat (List.length l) +
             Z.min (Z.max 1 0)
               (Z.of_nat (List.length l) + 1 - Z.of_nat (List.length l)))
      with (Z.of_nat (List.length (l ++ [a]))) by lia.
    rewrite !Nat2Z.id.
    rewrite firstn_app, firstn_all, Nat.sub_diag. cbn [firstn].
    rewrite skipn_all.
    rewrite !app_nil_r. reflexivity.
Qed.

(** The listener of ['closed'], called for a window that is not in the
    array, drops the last window of the array. *)
Lemma onWindowClosed_absent (bw : window) (s : session) :
  ~ In bw (browserWindows s) ->
  browserWindows (onWindowClosed bw s) = removelast (browserWindows s).
Proof.
  intro Hnot. unfold onWindowClosed, JS.indexOf. cbn [browserWindows set_browserWindows].
  rewrite (indexOf_from_absent _ _ 0 Hnot).
  apply splice_minus_one.
Qed.

(** Called for a window that is in the array, the listener removes its
    first occurrence and nothing else. *)
Lemma onWindowClosed_present (bw : window) (l1 l2 : list window) (s : session) :
  ~ In bw l1 ->
  browserWindows (onWindowClosed bw (set_browserWindows (l1 ++ bw :: l2) s))
  = l1 ++ l2.
Proof.
  intro Hnot. unfold onWindowClosed, JS.indexOf.
  cbn [browserWindows set_browserWindows].
  rewrite (indexOf_from_first _ _ _ 0 Hnot). apply splice_at.
Qed.

(* ------------------------------------------------------------------ *)
(** ** Handlers and emissions *)

Lemma perform_nil (s : session) : perform [] s = s.
Proof. destruct s. unfold perform. cbn. rewrite app_nil_r. reflexivity. Qed.

Lemma perform_perform (a b : list effect) (s : session) :
  perform b (perform a s) = perform (a ++ b) s.
Proof. destruct s. unfold perform. cbn. rewrite app_assoc. reflexivity. Qed.

Lemma call_handler_perform (h : handler) (s : session) :
  call_handler h s = perform (output (browserWindows s) h) s.
Proof. destruct h; reflexivity. Qed.

(** Running listeners one after the other only appends their outputs:
    no handler touches the array of windows or the watchers. *)
Lemma fold_call_handler (hs : list handler) (s : session) :
  fold_left (fun acc h => call_handler h acc) hs s
  = perform (flat_map (output (browserWindows s)) hs) s.
Proof.
  revert s. induction hs as [|h hs IH]; intro s; cbn [fold_left flat_map].
  - symmetry. apply perform_nil.
  - rewrite IH, call_handler_perform, perform_perform.
    destruct s; reflexivity.
Qed.

(** The listeners of ['closed'] only touch the array of windows. *)
Lemma fold_onWindowClosed (l : list window) (s : session) :
  let s' := fold_left (fun acc b => onWindowClosed b acc) l s in
  watcher s' = watcher s /\ hardWatcher s' = hardWatcher s /\
  effects s' = effects s /\ calls s' = calls s.
Proof.
  revert s. induction l as [|b l IH]; intro s; cbn [fold_left].
  - repeat split.
  - destruct (IH (onWindowClosed b s)) as (H1 & H2 & H3 & H4).
    cbn zeta. rewrite H1, H2, H3, H4. destruct s. repeat split.
Qed.

Lemma emit_known (who : subscription) (s : session)
      (w : Chokidar.watcher handler) :
  get_watcher who s = Some w ->
  emit who s
  = perform (flat_map (output (browserWindows s)) (fst (Chokidar.emit_change w)))
            (set_watcher who (Some (snd (Chokidar.emit_change w))) s).
Proof.
  intro Hw. unfold emit. rewrite Hw.
  destruct (Chokidar.emit_change w) as [hs w'].
  rewrite fold_call_handler. destruct who, s; reflexivity.
Qed.

(** No event changes what a watcher watches, what it ignores, or whether
    it is closed. *)
Lemma emit_config (who who' : subscription) (s : session) :
  option_map config (get_watcher who' (emit who s))
  = option_map config (get_watcher who' s).
Proof.
  destruct (get_watcher who s) as [w|] eqn:Hw.
  - rewrite (emit_known _ _ _ Hw).
    unfold Chokidar.emit_change.
    destruct who, who', s; cbn in *; rewrite ?Hw;
      destruct (Chokidar.closed w) eqn:Hc; cbn; try reflexivity;
      unfold config; cbn; rewrite ?Hc; reflexivity.
  - unfold emit. rewrite Hw. reflexivity.
Qed.

Lemma tracked_by_config (who : subscription) (s s' : session) (p : string) :
  option_map config (get_watcher who s') = option_map config (get_watcher who s) ->
  tracked_by who s' p = tracked_by who s p.
Proof.
  unfold tracked_by, Chokidar.tracks, config.
  destruct (get_watcher who s') as [w'|], (get_watcher who s) as [w|];
    cbn; intro H; try discriminate; [|reflexivity].
  injection H as -> -> ->. reflexivity.
Qed.

Lemma is_open_config (who : subscription) (s s' : session) :
  option_map config (get_watcher who s') = option_map config (get_watcher who s) ->
  is_open who s' = is_open who s.
Proof.
  unfold is_open, config.
  destruct (get_watcher who s') as [w'|], (get_watcher who s) as [w|];
    cbn; intro H; try discriminate; [|reflexivity].
  injection H as _ _ ->. reflexivity.
Qed.

Lemma deliver_config (who : subscription) (e : event) (s : session) :
  option_map config (get_watcher who (deliver e s))
  = option_map config (get_watcher who s).
Proof.
  destruct e as [bw|bw|who' p|p]; cbn [deliver].
  - destruct (app_listening s); [|reflexivity]. destruct who, s; reflexivity.
  - destruct (fold_onWindowClosed (filter (same_window bw) (closed_listeners s)) s)
      as (H1 & H2 & _).
    destruct who; cbn [get_watcher]; congruence.
  - apply emit_config.
  - unfold notify.
    destruct (tracked_by the_hardWatcher _ p);
      [rewrite emit_config|];
      destruct (tracked_by the_watcher s p); try apply emit_config; reflexivity.
Qed.

Lemma run_config (who : subscription) (es : list event) (s : session) :
  option_map config (get_watcher who (run es s))
  = option_map config (get_watcher who s).
Proof.
  revert s. induction es as [|e es IH]; intro s; cbn [run fold_left].
  - reflexivity.
  - fold (run es (deliver e s)). rewrite IH. apply deliver_config.
Qed.

(** Whether an event reaches a watcher does not depend on the moment. *)
Lemma fires_config (who : subscription) (s s' : session) (e : event) :
  option_map config (get_watcher who s') = option_map config (get_watcher who s) ->
  fires who s' e = fires who s e.
Proof.
  intro H. destruct e; cbn [fires]; try reflexivity.
  - rewrite (is_open_config _ _ _ H). reflexivity.
  - apply tracked_by_config, H.
Qed.

Lemma fires_run (who : subscription) (es : list event) (s : session) (e : event) :
  fires who (run es s) e = fires who s e.
Proof. apply fires_config, run_config. Qed.

Lemma run_app (es1 es2 : list event) (s : session) :
  run (es1 ++ es2) s = run es2 (run es1 s).
Proof. unfold run. apply fold_left_app. Qed.

(* ------------------------------------------------------------------ *)
(** ** One event, in a session of known shape *)

Section Shape.
Variables (wg wh : Chokidar.watcher handler).
Variables (eXecutable method : option string) (eArgv aArgv : option (list string)).
Hypothesis wg_listeners :
  Chokidar.listeners wg = [Chokidar.mkListener softResetHandler false].

Lemma deliver_shape (mode : option bool) (s : session) (e : event) :
  shape wg wh (createHardresetHandler eXecutable method eArgv aArgv) mode s ->
  shape wg wh (createHardresetHandler eXecutable method eArgv aArgv)
    (option_map (fun armed => armed && negb (fires the_hardWatcher s e)) mode)
    (deliver e s) /\
  effects (deliver e s)
  = effects s
      ++ (if fires the_watcher s e then softReset s else [])
      ++ match mode with
         | Some true =>
             if fires the_hardWatcher s e
             then hardReset eXecutable method eArgv aArgv else []
         | _ => []
         end.
Proof.
  unfold shape.
  destruct wg as [pg ig cg lg]. cbn in wg_listeners. subst lg.
  destruct s as [bws w hw al cl cs es]. cbn [watcher hardWatcher].
  intros [-> ->].
  destruct e as [bw|bw|who p|p].
  - cbn. destruct al, mode as [[|]|]; cbn; rewrite ?app_nil_r;
      repeat split; reflexivity.
  - cbn [deliver closed_listeners].
    match goal with |- context [fold_left ?f ?l ?s0] =>
      destruct (fold_onWindowClosed l s0) as (H1 & H2 & H3 & _) end.
    cbn zeta in H1, H2, H3. rewrite H1, H2, H3.
    cbn. destruct mode as [[|]|]; cbn; rewrite ?app_nil_r;
      repeat split; reflexivity.
  - destruct who, mode as [[|]|], cg; cbn;
      rewrite ?app_nil_r, <- ?app_assoc; repeat split; reflexivity.
  - unfold deliver, notify, tracked_by, fires, tracked_by, emit,
      Chokidar.emit_change, Chokidar.tracks, softReset.
    destruct mode as [[|]|], cg; cbn;
      repeat match goal with
             | |- context [existsb ?f ?l] => destruct (existsb f l); cbn
             | |- context [Chokidar.anymatch ?i ?q] =>
                 destruct (Chokidar.anymatch i q); cbn
             end;
      rewrite ?app_nil_r, <- ?app_assoc; repeat split; reflexivity.
Qed.

Lemma respawn_is_hard :
  filter is_hard (hardReset eXecutable method eArgv aArgv)
  = hardReset eXecutable method eArgv aArgv.
Proof.
  unfold hardReset. cbn.
  destruct (JS.strict_eq_str method "exit"); reflexivity.
Qed.

Lemma softReset_is_soft (s : session) : filter is_hard (softReset s) = [].
Proof.
  unfold softReset. induction (browserWindows s); cbn; auto.
Qed.

Lemma existsb_fires_deliver (who : subscription) (e : event) (s : session)
      (es : list event) :
  existsb (fires who (deliver e s)) es = existsb (fires who s) es.
Proof.
  induction es as [|e' es IH]; cbn; [reflexivity|].
  rewrite IH. f_equal. apply fires_config, deliver_config.
Qed.

(** A whole history: the shape at its end, and the hard-reset effects it
    leaves in the trace. *)
Lemma run_shape (es : list event) (mode : option bool) (s : session) :
  shape wg wh (createHardresetHandler eXecutable method eArgv aArgv) mode s ->
  shape wg wh (createHardresetHandler eXecutable method eArgv aArgv)
    (option_map
       (fun armed => armed && negb (existsb (fires the_hardWatcher s) es)) mode)
    (run es s) /\
  filter is_hard (effects (run es s))
  = filter is_hard (effects s)
      ++ match mode with
         | Some true =>
             if existsb (fires the_hardWatcher s) es
             then hardReset eXecutable method eArgv aArgv else []
         | _ => []
         end.
Proof.
  revert mode s. induction es as [|e es IH]; intros mode s Hs.
  - cbn. split.
    + destruct mode as [[|]|]; exact Hs.
    + destruct mode as [[|]|]; rewrite app_nil_r; reflexivity.
  - cbn [run fold_left]. fold (run es (deliver e s)).
    destruct (deliver_shape mode s e Hs) as [Hs' He].
    destruct (IH _ _ Hs') as [Hs'' He''].
    rewrite existsb_fires_deliver in Hs'', He''.
    split.
    + cbn [existsb].
      destruct mode as [[|]|]; cbn in *;
        destruct (fires the_hardWatcher s e); cbn in *; exact Hs''.
    + rewrite He'', He, !filter_app. cbn [existsb].
      destruct (fires the_watcher s e);
        rewrite ?softReset_is_soft; cbn [filter app];
        destruct mode as [[|]|]; cbn [option_map andb negb orb];
        destruct (fires the_hardWatcher s e); cbn [option_map andb negb orb];
        rewrite ?respawn_is_hard; cbn [filter];
        rewrite ?app_nil_r, <- ?app_assoc; reflexivity.
Qed.

Lemma closed_never_fires (mode : option bool) (s : session) (e : event) :
  Chokidar.closed wg = true ->
  shape wg wh (createHardresetHandler eXecutable method eArgv aArgv) mode s ->
  fires the_watcher s e = false.
Proof.
  intros Hc [Hw _].
  destruct e as [bw|bw|who p|p]; cbn [fires]; try reflexivity.
  - unfold is_open. cbn [get_watcher]. rewrite Hw, Hc.
    apply andb_false_r.
  - unfold tracked_by, Chokidar.tracks. cbn [get_watcher]. rewrite Hw, Hc.
    reflexivity.
Qed.

(** With the general watcher closed, the trace holds nothing but the
    effects of the hard reset. *)
Lemma run_shape_closed (es : list event) (mode : option bool) (s : session) :
  Chokidar.closed wg = true ->
  shape wg wh (createHardresetHandler eXecutable method eArgv aArgv) mode s ->
  effects (run es s)
  = effects s
      ++ match mode with
         | Some true =>
             if existsb (fires the_hardWatcher s) es
             then hardReset eXecutable method eArgv aArgv else []
         | _ => []
         end.
Proof.
  intro Hc. revert mode s. induction es as [|e es IH]; intros mode s Hs.
  - cbn. destruct mode as [[|]|]; rewrite app_nil_r; reflexivity.
  - cbn [run fold_left]. fold (run es (deliver e s)).
    destruct (deliver_shape mode s e Hs) as [Hs' He].
    rewrite (IH _ _ Hs'), existsb_fires_deliver, He.
    rewrite (closed_never_fires mode s e Hc Hs). cbn [existsb app].
    destruct mode as [[|]|]; cbn [option_map andb negb orb];
      destruct (fires the_hardWatcher s e); cbn [option_map andb negb orb];
      rewrite ?app_nil_r, <- ?app_assoc; reflexivity.
Qed.

End Shape.

(* ------------------------------------------------------------------ *)
(** ** What one call of [electronReload] leaves behind *)

(** Without an executable: one open watcher with the soft-reset
    listener, and nothing else. *)
Lemma start_soft (glob : list string) (options : Options) :
  JS.truthy (electron options) = false ->
  start glob options
  = (mkSession []
       (Some (Chokidar.on softResetHandler
                (Chokidar.watch glob (watcher_options options))))
       None true []
       [ call_watch the_watcher glob (watcher_options options);
         call_app_on_created;
         call_on_change the_watcher softResetHandler ]
       [],
     Normal tt).
Proof.
  intro Hf. unfold start, electronReload, bind, when. cbn.
  rewrite Hf. reflexivity.
Qed.

(** With an executable that is not on disk: the call throws after the
    general watcher was created and subscribed. *)
Lemma start_missing (glob : list string) (options : Options) (exe : string) :
  electron options = Some exe -> exe <> "" -> existsSync exe = false ->
  start glob options
  = (mkSession []
       (Some (Chokidar.on softResetHandler
                (Chokidar.watch glob (watcher_options options))))
       None true []
       [ call_watch the_watcher glob (watcher_options options);
         call_app_on_created;
         call_on_change the_watcher softResetHandler;
         call_existsSync (Some exe) ]
       [],
     Thrown "Provided electron executable cannot be found or is not executable!").
Proof.
  intros He Hne Hx. unfold start, electronReload, bind, when. cbn.
  rewrite He. cbn. apply String.eqb_neq in Hne. rewrite Hne. cbn.
  rewrite Hx. reflexivity.
Qed.

(** With an executable on disk and no forced hard reset: two open
    watchers, the second one on the main file with a one-shot listener. *)
Lemma start_hard (glob : list string) (options : Options) (exe : string) :
  electron options = Some exe -> exe <> "" -> existsSync exe = true ->
  JS.strict_eq_true (forceHardReset options) = false ->
  start glob options
  = (mkSession []
       (Some (Chokidar.on softResetHandler
                (Chokidar.watch glob (watcher_options options))))
       (Some (Chokidar.once
                (hardResetHandler options)
                (Chokidar.watch [mainFile] (hardWatcher_options options))))
       true []
       [ call_watch the_watcher glob (watcher_options options);
         call_app_on_created;
         call_on_change the_watcher softResetHandler;
         call_existsSync (Some exe);
         call_watch the_hardWatcher [mainFile] (hardWatcher_options options);
         call_once_change the_hardWatcher (hardResetHandler options) ]
       [],
     Normal tt).
Proof.
  intros He Hne Hx Hf.
  unfold start, electronReload, bind, when, hardResetHandler. cbn.
  rewrite He. cbn. apply String.eqb_neq in Hne. rewrite Hne. cbn.
  rewrite Hx, Hf. reflexivity.
Qed.

(** With an executable on disk and [forceHardReset: true]: the general
    watcher is closed, the hard watcher also watches the glob, and only
    then is the one-shot listener registered. *)
Lemma start_forced (glob : list string) (options : Options) (exe : string) :
  electron options = Some exe -> exe <> "" -> existsSync exe = true ->
  forceHardReset options = Some true ->
  start glob options
  = (mkSession []
       (Some (Chokidar.close
                (Chokidar.on softResetHandler
                   (Chokidar.watch glob (watcher_options options)))))
       (Some (Chokidar.once
                (hardResetHandler options)
                (Chokidar.add glob
                   (Chokidar.watch [mainFile] (hardWatcher_options options)))))
       true []
       [ call_watch the_watcher glob (watcher_options options);
         call_app_on_created;
         call_on_change the_watcher softResetHandler;
         call_existsSync (Some exe);
         call_watch the_hardWatcher [mainFile] (hardWatcher_options options);
         call_add the_hardWatcher glob;
         call_close the_watcher;
         call_once_change the_hardWatcher (hardResetHandler options) ]
       [],
     Normal tt).
Proof.
  intros He Hne Hx Hf.
  unfold start, electronReload, bind, when, hardResetHandler. cbn.
  rewrite He. cbn. apply String.eqb_neq in Hne. rewrite Hne. cbn.
  rewrite Hx, Hf. reflexivity.
Qed.

(** In every case the general watcher exists, watches the glob with the
    merged ignore list and holds the soft-reset listener. *)
Lemma start_watcher (glob : list string) (options : Options) :
  exists c,
    watcher (fst (start glob options))
    = Some (Chokidar.mkWatcher glob (Chokidar.arrify (watcher_options options))
              c [Chokidar.mkListener softResetHandler false]).
Proof.
  unfold start, electronReload, bind, when, fs_existsSync. cbn.
  destruct (electron options) as [exe|]; cbn; [|exists false; reflexivity].
  destruct (String.eqb exe ""); cbn; [exists false; reflexivity|].
  destruct (existsSync exe); cbn; [|exists false; reflexivity].
  destruct (JS.strict_eq_true (forceHardReset options)); cbn;
    [exists true|exists false]; reflexivity.
Qed.

(** When there is a hard watcher, it watches the main file with its own
    merged ignore list. *)
Lemma start_hardWatcher (glob : list string) (options : Options)
      (w : Chokidar.watcher handler) :
  hardWatcher (fst (start glob options)) = Some w ->
  Chokidar.ignored w = Chokidar.arrify (hardWatcher_options options) /\
  In mainFile (Chokidar.paths w) /\
  Chokidar.closed w = false.
Proof.
  unfold start, electronReload, bind, when, fs_existsSync. cbn.
  destruct (electron options) as [exe|]; cbn; [|discriminate].
  destruct (String.eqb exe ""); cbn; [discriminate|].
  destruct (existsSync exe); cbn; [|discriminate].
  destruct (JS.strict_eq_true (forceHardReset options)); cbn;
    intro H; injection H as <-; cbn; auto.
Qed.

(* ------------------------------------------------------------------ *)
(** ** The regular expression and the segments of a path *)

Lemma strip_prefix_refl (c : ascii) (l s : string) :
  Regex.strip_prefix (String c l) (String c s) = Regex.strip_prefix l s.
Proof. cbn. rewrite Ascii.eqb_refl. reflexivity. Qed.

Lemma test_here (r : Regex.regex) (s : string) :
  Regex.matches_here r s = true -> Regex.test r s = true.
Proof. intro H. destruct s; cbn; rewrite H; reflexivity. Qed.

Lemma test_skip (r : Regex.regex) (c : ascii) (s : string) :
  Regex.test r s = true -> Regex.test r (String c s) = true.
Proof. intro H. cbn [Regex.test]. rewrite H. apply orb_true_r. Qed.

Lemma matches_here_alt (r1 r2 : Regex.regex) (s : string) :
  Regex.matches_here (Regex.Alt r1 r2) s
  = Regex.matches_here r1 s || Regex.matches_here r2 s.
Proof.
  unfold Regex.matches_here. cbn [Regex.matches_at].
  destruct (Regex.matches_at r1 s), (Regex.matches_at r2 s); reflexivity.
Qed.

Lemma test_alt (r1 r2 : Regex.regex) (s : string) :
  Regex.test (Regex.Alt r1 r2) s = Regex.test r1 s || Regex.test r2 s.
Proof.
  induction s as [|c s IH]; cbn [Regex.test]; rewrite matches_here_alt.
  - rewrite !orb_false_r. reflexivity.
  - rewrite IH.
    destruct (Regex.matches_here r1 (String c s)),
             (Regex.matches_here r2 (String c s)),
             (Regex.test r1 s), (Regex.test r2 s); reflexivity.
Qed.

Lemma segments_nonempty (p : string) : segments p <> [].
Proof.
  destruct p as [|c rest]; cbn; [discriminate|].
  destruct (is_separator c); [discriminate|].
  destruct (segments rest); discriminate.
Qed.

(** The first segment of a path is a prefix of the path. *)
Lemma first_segment_prefix (p seg : string) (more : list string) :
  segments p = seg :: more ->
  exists rest, Regex.strip_prefix seg p = Some rest.
Proof.
  revert seg more. induction p as [|c rest IH]; intros seg more; cbn.
  - intro H; injection H as <- _. exists "". reflexivity.
  - destruct (is_separator c).
    + intro H; injection H as <- _. eexists. reflexivity.
    + destruct (segments rest) as [|seg' more'] eqn:E.
      * destruct (segments_nonempty rest E).
      * intro H; injection H as <- _.
        rewrite strip_prefix_refl. apply (IH seg' more'). reflexivity.
Qed.

(** A path with a segment named [name] contains the text [name]. *)
Lemma has_segment_test (name p : string) :
  has_segment name p = true -> Regex.test (Regex.Lit name) p = true.
Proof.
  unfold has_segment.
  induction p as [|c rest IH]; cbn [segments existsb].
  - rewrite orb_false_r. intro H. apply String.eqb_eq in H. subst name.
    reflexivity.
  - destruct (is_separator c).
    + cbn [existsb]. intro H. apply orb_true_iff in H. destruct H as [H|H].
      * apply String.eqb_eq in H. subst name. reflexivity.
      * apply test_skip, IH, H.
    + destruct (segments rest) as [|seg more] eqn:E.
      * destruct (segments_nonempty rest E).
      * cbn [existsb] in *. intro H. apply orb_true_iff in H.
        destruct H as [H|H].
        -- apply String.eqb_eq in H. subst name. apply test_here.
           unfold Regex.matches_here. cbn [Regex.matches_at].
           rewrite strip_prefix_refl.
           destruct (first_segment_prefix rest seg more E) as [r ->].
           reflexivity.
        -- apply test_skip, IH. rewrite H. apply orb_true_r.
Qed.

Lemma first_segment_dot (p seg : string) (more : list string) :
  segments p = seg :: more -> dot_prefixed seg = true ->
  exists rest, p = String "."%char rest.
Proof.
  destruct p as [|c rest]; cbn.
  - intro H; injection H as <- _. discriminate.
  - destruct (is_separator c).
    + intro H; injection H as <- _. discriminate.
    + destruct (segments rest); intro H; injection H as <- _; cbn;
        intro Hd; apply Ascii.eqb_eq in Hd; subst c; eexists; reflexivity.
Qed.

(** A dot-prefixed segment behind a separator is what the second
    alternative of [ignoredPaths] looks for. *)
Lemma inner_dot_segment_test (p : string) :
  has_inner_dot_segment p = true ->
  Regex.test (Regex.Cat (Regex.Class [slash; backslash]) (Regex.Lit ".")) p
  = true.
Proof.
  unfold has_inner_dot_segment.
  induction p as [|c rest IH]; cbn [segments tl existsb].
  - discriminate.
  - destruct (is_separator c) eqn:Hc.
    + cbn [tl]. destruct (segments rest) as [|seg more] eqn:E.
      * discriminate.
      * cbn [existsb]. intro H. apply orb_true_iff in H. destruct H as [H|H].
        -- destruct (first_segment_dot rest seg more E H) as [r ->].
           apply test_here. unfold Regex.matches_here. cbn.
           unfold is_separator in Hc. rewrite orb_false_r, Hc. reflexivity.
        -- apply test_skip, IH. exact H.
    + destruct (segments rest) as [|seg more] eqn:E.
      * discriminate.
      * cbn [tl] in *. intro H. apply test_skip, IH, H.
Qed.

Lemma ignoredPaths_node_modules (p : string) :
  Regex.test (Regex.Lit "node_modules") p = true ->
  Regex.test ignoredPaths p = true.
Proof. intro H. unfold ignoredPaths. rewrite test_alt, H. reflexivity. Qed.

Lemma ignoredPaths_inner_dot (p : string) :
  has_inner_dot_segment p = true -> Regex.test ignoredPaths p = true.
Proof.
  intro H. unfold ignoredPaths.
  rewrite test_alt, (inner_dot_segment_test p H). apply orb_true_r.
Qed.

(* ------------------------------------------------------------------ *)
(** ** The window registry *)

(** C1 (the code departs from the claim).  The claim: the listener of
    ['closed'], called for a window that is no longer in the array,
    leaves the array unchanged.  The code: [indexOf] answers [-1] and
    [splice(-1, 1)] removes the last window.  Here windows 1 and 2 are
    created and window 1 is closed, which leaves [2]; a second ['closed']
    for window 1 raises nothing, issues no effect, and removes window 2. *)
Theorem C1_closed_again_removes_another_window (glob : list string) :
  browserWindows
    (run [BrowserWindowCreated 1%nat; BrowserWindowCreated 2%nat; Closed 1%nat]
         (fst (start glob no_options))) = [2%nat] /\
  browserWindows
    (run [BrowserWindowCreated 1%nat; BrowserWindowCreated 2%nat; Closed 1%nat;
          Closed 1%nat]
         (fst (start glob no_options))) = [] /\
  browserWindows
    (onWindowClosed 7%nat (set_browserWindows [1%nat; 2%nat] fresh)) = [1%nat].
Proof. repeat split; reflexivity. Qed.

(* ------------------------------------------------------------------ *)
(** ** Soft reset only *)

(** C8.  Without an executable in the options ([options.electron] is
    falsy), the call completes, there is never a hard watcher, every
    change of a path under the glob that is not ignored makes the general
    watcher run one sweep that reloads each window of [browserWindows] in
    order, and the trace never holds anything but reloads. *)
Theorem C8_soft_reload_only (glob : list string) (options : Options)
    (es : list event) (p : string) :
  JS.truthy (electron options) = false ->
  snd (start glob options) = Normal tt /\
  hardWatcher (run es (fst (start glob options))) = None /\
  tracked_by the_watcher (run es (fst (start glob options))) p
  = existsb (fun pat => covers pat p) glob
    && negb (Chokidar.anymatch (Chokidar.arrify (watcher_options options)) p) /\
  (tracked_by the_watcher (run es (fst (start glob options))) p = true ->
   effects (deliver (FileChanged p) (run es (fst (start glob options))))
   = effects (run es (fst (start glob options)))
       ++ map ReloadIgnoringCache
              (browserWindows (run es (fst (start glob options))))) /\
  effects (deliver (Change the_watcher p) (run es (fst (start glob options))))
  = effects (run es (fst (start glob options)))
      ++ map ReloadIgnoringCache
             (browserWindows (run es (fst (start glob options)))) /\
  filter is_hard (effects (run es (fst (start glob options)))) = [].
Proof.
  intro Hf. rewrite (start_soft glob options Hf). cbn [fst snd].
  set (wg := Chokidar.on softResetHandler
               (Chokidar.watch glob (watcher_options options))).
  set (s0 := mkSession [] (Some wg) None true [] _ []).
  assert (Hl : Chokidar.listeners wg
               = [Chokidar.mkListener softResetHandler false]) by reflexivity.
  assert (Hs0 : shape wg wg (createHardresetHandler None None None None) None s0)
    by (split; reflexivity).
  destruct (run_shape wg wg None None None None Hl es None s0 Hs0) as [Hs He].
  pose proof (deliver_shape wg wg None None None None Hl None _ (FileChanged p) Hs)
    as [_ Hfile].
  pose proof (deliver_shape wg wg None None None None Hl None _
                (Change the_watcher p) Hs) as [_ Hchange].
  destruct Hs as [Hw Hh]. cbn [option_map] in Hh.
  assert (Ht : tracked_by the_watcher (run es s0) p
               = existsb (fun pat => covers pat p) glob
                 && negb (Chokidar.anymatch
                            (Chokidar.arrify (watcher_options options)) p)).
  { unfold tracked_by. cbn [get_watcher]. rewrite Hw. reflexivity. }
  repeat split.
  - exact Hh.
  - exact Ht.
  - intro Htr. rewrite Hfile. cbn [fires]. rewrite Htr, app_nil_r. reflexivity.
  - rewrite Hchange. cbn [fires same_subscription andb].
    unfold is_open. cbn [get_watcher]. rewrite Hw. cbn. rewrite app_nil_r.
    reflexivity.
  - rewrite He. reflexivity.
Qed.

(** C9.  Without an executable, [forceHardReset] is never read: the call
    with [forceHardReset: true] completes, leaves exactly the session of
    the call with any other value of that key (so every later history
    runs alike), keeps the general watcher open and creates no hard
    watcher. *)
Theorem C9_force_without_executable (glob : list string)
    (e m : option string) (ea aa : option (list string))
    (f : option bool) (ign : option Chokidar.ignored_value) :
  JS.truthy e = false ->
  start glob (mkOptions e m ea aa (Some true) ign)
  = start glob (mkOptions e m ea aa f ign) /\
  snd (start glob (mkOptions e m ea aa (Some true) ign)) = Normal tt /\
  is_open the_watcher (fst (start glob (mkOptions e m ea aa (Some true) ign)))
  = true /\
  hardWatcher (fst (start glob (mkOptions e m ea aa (Some true) ign))) = None /\
  calls (fst (start glob (mkOptions e m ea aa (Some true) ign)))
  = [ call_watch the_watcher glob
        (watcher_options (mkOptions e m ea aa (Some true) ign));
      call_app_on_created;
      call_on_change the_watcher softResetHandler ] /\
  forall es,
    run es (fst (start glob (mkOptions e m ea aa (Some true) ign)))
    = run es (fst (start glob (mkOptions e m ea aa f ign))).
Proof.
  intro Hf.
  assert (Heq : start glob (mkOptions e m ea aa (Some true) ign)
                = start glob (mkOptions e m ea aa f ign)).
  { rewrite !start_soft by exact Hf. reflexivity. }
  split; [exact Heq|].
  rewrite <- Heq. rewrite start_soft by exact Hf.
  repeat split; reflexivity.
Qed.

(* ------------------------------------------------------------------ *)
(** ** The executable is checked after the general watcher is set up *)

(** C2 (amended).  When [options.electron] is a non-empty path that is
    not on disk, [electronReload] throws its configuration error in the
    same call, before the hard watcher is created and before the
    hard-reset handler is registered; by then the general watcher has
    been created and subscribed to the soft reset, and it is still open
    when the error leaves. *)
Theorem C2_missing_executable_throws (glob : list string) (options : Options)
    (exe : string) :
  electron options = Some exe -> exe <> "" -> existsSync exe = false ->
  snd (start glob options)
  = Thrown "Provided electron executable cannot be found or is not executable!" /\
  hardWatcher (fst (start glob options)) = None /\
  calls (fst (start glob options))
  = [ call_watch the_watcher glob (watcher_options options);
      call_app_on_created;
      call_on_change the_watcher softResetHandler;
      call_existsSync (Some exe) ] /\
  watcher (fst (start glob options))
  = Some (Chokidar.on softResetHandler
            (Chokidar.watch glob (watcher_options options))) /\
  is_open the_watcher (fst (start glob options)) = true.
Proof.
  intros He Hne Hx. rewrite (start_missing glob options exe He Hne Hx).
  repeat split; reflexivity.
Qed.

(* ------------------------------------------------------------------ *)
(** ** The ignore lists *)

Lemma ignore_list_run (who : subscription) (es : list event) (s : session) :
  ignore_list who (run es s) = ignore_list who s.
Proof.
  pose proof (run_config who es s) as H. unfold ignore_list, config in *.
  destruct (get_watcher who (run es s)), (get_watcher who s);
    cbn in H; try discriminate; [|reflexivity].
  injection H as _ -> _. reflexivity.
Qed.

Lemma tracked_by_run (who : subscription) (es : list event) (s : session)
      (p : string) :
  tracked_by who (run es s) p = tracked_by who s p.
Proof. apply tracked_by_config, run_config. Qed.

Lemma ignore_list_watcher (glob : list string) (options : Options) :
  ignore_list the_watcher (fst (start glob options))
  = Chokidar.arrify (watcher_options options).
Proof.
  unfold ignore_list. cbn [get_watcher].
  destruct (start_watcher glob options) as [c ->]. reflexivity.
Qed.

Lemma ignored_not_tracked (who : subscription) (s : session) (p : string) :
  Chokidar.anymatch (ignore_list who s) p = true -> tracked_by who s p = false.
Proof.
  unfold ignore_list, tracked_by, Chokidar.tracks.
  destruct (get_watcher who s) as [w|]; [|reflexivity].
  intros ->. apply andb_false_r.
Qed.

(** C10.  When the options carry their own [ignored] key, its value is
    the whole ignore list of the general watcher and of the hard watcher,
    if there is one: a path that the user's entries do not match is
    ignored by neither watcher, whether or not it matches
    [ignoredPaths] or is the main file. *)
Theorem C10_user_ignored_replaces_defaults (glob : list string)
    (options : Options) (v : Chokidar.ignored_value) :
  ignored options = Some v ->
  (forall es,
     ignore_list the_watcher (run es (fst (start glob options)))
     = Chokidar.arrify v) /\
  (forall w,
     hardWatcher (fst (start glob options)) = Some w ->
     Chokidar.ignored w = Chokidar.arrify v) /\
  (forall es who p,
     Chokidar.anymatch (Chokidar.arrify v) p = false ->
     Chokidar.anymatch
       (ignore_list who (run es (fst (start glob options)))) p = false).
Proof.
  intro Hv.
  assert (Hg : watcher_options options = v)
    by (unfold watcher_options, Object_assign_ignored; rewrite Hv; reflexivity).
  assert (Hh : hardWatcher_options options = v)
    by (unfold hardWatcher_options, Object_assign_ignored; rewrite Hv;
        reflexivity).
  assert (Hw : forall w, hardWatcher (fst (start glob options)) = Some w ->
                         Chokidar.ignored w = Chokidar.arrify v).
  { intros w Hsome.
    destruct (start_hardWatcher glob options w Hsome) as [-> _].
    rewrite Hh. reflexivity. }
  repeat split.
  - intro es. rewrite ignore_list_run, ignore_list_watcher, Hg. reflexivity.
  - exact Hw.
  - intros es who p Hp. rewrite ignore_list_run. destruct who.
    + rewrite ignore_list_watcher, Hg. exact Hp.
    + unfold ignore_list. cbn [get_watcher].
      destruct (hardWatcher (fst (start glob options))) as [w|] eqn:E.
      * rewrite (Hw w eq_refl). exact Hp.
      * reflexivity.
Qed.

(** C7 (amended).  When the options carry no [ignored] key, the general
    watcher ignores, and so never tracks, a path that contains the text
    [node_modules] (in particular one with a segment of that name), a
    path with a dot-prefixed segment that follows a separator, and the
    main file. *)
Theorem C7_default_ignore_rules (glob : list string) (options : Options)
    (es : list event) (p : string) :
  ignored options = None ->
  Regex.test (Regex.Lit "node_modules") p = true \/
  has_segment "node_modules" p = true \/
  has_inner_dot_segment p = true \/
  p = mainFile ->
  Chokidar.anymatch
    (ignore_list the_watcher (run es (fst (start glob options)))) p = true /\
  tracked_by the_watcher (run es (fst (start glob options))) p = false.
Proof.
  intros Hnone Hp.
  assert (Hi : Chokidar.anymatch
                 (ignore_list the_watcher (run es (fst (start glob options))))
                 p = true).
  { rewrite ignore_list_run, ignore_list_watcher.
    unfold watcher_options, Object_assign_ignored. rewrite Hnone.
    cbn [Chokidar.arrify Chokidar.anymatch existsb Chokidar.matcher_matches].
    destruct Hp as [H|[H|[H|H]]].
    - rewrite (ignoredPaths_node_modules p H). reflexivity.
    - rewrite (ignoredPaths_node_modules p (has_segment_test _ p H)).
      reflexivity.
    - rewrite (ignoredPaths_inner_dot p H). reflexivity.
    - subst p. rewrite String.eqb_refl. apply orb_true_iff. right. reflexivity. }
  split; [exact Hi|]. apply ignored_not_tracked, Hi.
Qed.

(* ------------------------------------------------------------------ *)
(** ** Hard reset *)

(** C4 (amended).  With an executable that is on disk and
    [forceHardReset: true], the call completes and its last three calls
    are, in this order,
    [hardWatcher.add(glob)], [watcher.close()] and
    [hardWatcher.once('change', hardResetHandler)].  From then on the
    general watcher is closed and tracks nothing, the hard watcher tracks
    the main file and the whole glob, and after any history the trace is
    the hard reset alone, once, if some change reached the hard watcher,
    and empty otherwise: no window is ever reloaded. *)
Theorem C4_forced_hard_reset (glob : list string) (options : Options)
    (exe : string) :
  electron options = Some exe -> exe <> "" -> existsSync exe = true ->
  forceHardReset options = Some true ->
  snd (start glob options) = Normal tt /\
  (exists before,
     calls (fst (start glob options))
     = before ++ [ call_add the_hardWatcher glob;
                   call_close the_watcher;
                   call_once_change the_hardWatcher (hardResetHandler options) ]
     /\ forall who h, ~ In (call_once_change who h) before) /\
  (forall es, is_open the_watcher (run es (fst (start glob options))) = false) /\
  (forall es p,
     tracked_by the_watcher (run es (fst (start glob options))) p = false) /\
  (forall es p,
     tracked_by the_hardWatcher (run es (fst (start glob options))) p
     = existsb (fun pat => covers pat p) (mainFile :: glob)
       && negb (Chokidar.anymatch
                  (Chokidar.arrify (hardWatcher_options options)) p)) /\
  (forall es,
     effects (run es (fst (start glob options)))
     = if existsb (fires the_hardWatcher (fst (start glob options))) es
       then respawn options else []) /\
  (forall es,
     filter is_reload (effects (run es (fst (start glob options)))) = []).
Proof.
  intros He Hne Hx Hf.
  assert (Hf' : JS.strict_eq_true (forceHardReset options) = true)
    by (rewrite Hf; reflexivity).
  rewrite (start_forced glob options exe He Hne Hx Hf). cbn [fst snd].
  set (wg := Chokidar.close
               (Chokidar.on softResetHandler
                  (Chokidar.watch glob (watcher_options options)))).
  set (wh := Chokidar.add glob
               (Chokidar.watch [mainFile] (hardWatcher_options options))).
  set (s0 := mkSession [] (Some wg) _ true [] _ []).
  assert (Hl : Chokidar.listeners wg
               = [Chokidar.mkListener softResetHandler false]) by reflexivity.
  assert (Hc : Chokidar.closed wg = true) by reflexivity.
  assert (Hs0 : shape wg wh (hardResetHandler options) (Some true) s0)
    by (split; reflexivity).
  assert (Hrun : forall es,
            effects (run es s0)
            = if existsb (fires the_hardWatcher s0) es
              then respawn options else []).
  { intro es.
    apply (run_shape_closed wg wh _ _ _ _ Hl es (Some true) s0 Hc Hs0). }
  split; [reflexivity|].
  split.
  { eexists [_; _; _; _; _]. split; [reflexivity|].
    intros who h [H|[H|[H|[H|[H|[]]]]]]; discriminate. }
  split.
  { intro es. rewrite is_open_config with (s := s0) by apply run_config.
    reflexivity. }
  split.
  { intros es p. rewrite tracked_by_run. reflexivity. }
  split.
  { intros es p. rewrite tracked_by_run. reflexivity. }
  split; [exact Hrun|].
  intro es. rewrite Hrun.
  destruct (existsb (fires the_hardWatcher s0) es); [|reflexivity].
  unfold respawn, hardReset. cbn.
  destruct (JS.strict_eq_str (hardResetMethod options) "exit"); reflexivity.
Qed.

(** C5 (amended).  With an executable that is on disk and no forced
    hard reset, the call completes and the hard watcher holds the
    hard-reset handler
    as a one-shot listener: the first ['change'] the hard watcher emits
    appends one hard reset (spawn, unref, quit or exit) to the trace, a
    later ['change'] of the hard watcher appends nothing, and over any
    history the hard-reset effects in the trace are that one hard reset
    if a change reached the hard watcher and none otherwise.  A change of
    a file reaches the hard watcher when the pattern [mainFile] covers it
    and the hard watcher does not ignore it; when that holds of the main
    file itself, a history in which the main file changes leaves exactly
    one hard reset, whatever comes before and after. *)
Theorem C5_hard_reset_fires_once (glob : list string) (options : Options)
    (exe : string) :
  electron options = Some exe -> exe <> "" -> existsSync exe = true ->
  JS.strict_eq_true (forceHardReset options) = false ->
  snd (start glob options) = Normal tt /\
  (forall pre p,
     existsb (fires the_hardWatcher (fst (start glob options))) pre = false ->
     effects (deliver (Change the_hardWatcher p)
                      (run pre (fst (start glob options))))
     = effects (run pre (fst (start glob options))) ++ respawn options) /\
  (forall pre p,
     existsb (fires the_hardWatcher (fst (start glob options))) pre = true ->
     effects (deliver (Change the_hardWatcher p)
                      (run pre (fst (start glob options))))
     = effects (run pre (fst (start glob options)))) /\
  (forall es,
     filter is_hard (effects (run es (fst (start glob options))))
     = if existsb (fires the_hardWatcher (fst (start glob options))) es
       then respawn options else []) /\
  (forall p,
     fires the_hardWatcher (fst (start glob options)) (Change the_hardWatcher p)
     = true) /\
  (forall p,
     fires the_hardWatcher (fst (start glob options)) (FileChanged p)
     = covers mainFile p
       && negb (Chokidar.anymatch
                  (Chokidar.arrify (hardWatcher_options options)) p)) /\
  (forall pre post,
     covers mainFile mainFile = true ->
     Chokidar.anymatch (Chokidar.arrify (hardWatcher_options options)) mainFile
     = false ->
     filter is_hard
       (effects (run (pre ++ FileChanged mainFile :: post)
                     (fst (start glob options))))
     = respawn options).
Proof.
  intros He Hne Hx Hf.
  rewrite (start_hard glob options exe He Hne Hx Hf). cbn [fst snd].
  set (wg := Chokidar.on softResetHandler
               (Chokidar.watch glob (watcher_options options))).
  set (wh := Chokidar.watch [mainFile] (hardWatcher_options options)).
  set (s0 := mkSession [] (Some wg) _ true [] _ []).
  assert (Hl : Chokidar.listeners wg
               = [Chokidar.mkListener softResetHandler false]) by reflexivity.
  assert (Hs0 : shape wg wh (hardResetHandler options) (Some true) s0)
    by (split; reflexivity).
  assert (Hstep : forall pre p,
            effects (deliver (Change the_hardWatcher p) (run pre s0))
            = effects (run pre s0)
                ++ if existsb (fires the_hardWatcher s0) pre
                   then [] else respawn options).
  { intros pre p.
    destruct (run_shape wg wh _ _ _ _ Hl pre (Some true) s0 Hs0) as [Hs _].
    destruct (deliver_shape wg wh _ _ _ _ Hl _ _ (Change the_hardWatcher p) Hs)
      as [_ ->].
    assert (Hfire : fires the_hardWatcher (run pre s0) (Change the_hardWatcher p)
                    = true).
    { rewrite fires_run. reflexivity. }
    rewrite Hfire. cbn [fires same_subscription andb app option_map].
    destruct (existsb (fires the_hardWatcher s0) pre); reflexivity. }
  split; [reflexivity|].
  split.
  { intros pre p Hpre. rewrite Hstep, Hpre. reflexivity. }
  split.
  { intros pre p Hpre. rewrite Hstep, Hpre. apply app_nil_r. }
  split.
  { intro es.
    destruct (run_shape wg wh _ _ _ _ Hl es (Some true) s0 Hs0) as [_ ->].
    reflexivity. }
  assert (Hfile : forall p,
            fires the_hardWatcher s0 (FileChanged p)
            = covers mainFile p
              && negb (Chokidar.anymatch
                         (Chokidar.arrify (hardWatcher_options options)) p)).
  { intro p. cbn [fires]. unfold tracked_by, Chokidar.tracks. cbn.
    rewrite orb_false_r. reflexivity. }
  split.
  { intro p. reflexivity. }
  split; [exact Hfile|].
  intros pre post Hcov Hign.
  destruct (run_shape wg wh _ _ _ _ Hl (pre ++ FileChanged mainFile :: post)
              (Some true) s0 Hs0) as [_ ->].
  rewrite existsb_app. cbn [existsb]. rewrite Hfile, Hcov, Hign.
  cbn [negb andb orb]. rewrite orb_true_r. reflexivity.
Qed.

(* ------------------------------------------------------------------ *)
(** ** The registry over a history *)

Lemma emit_registry (who : subscription) (s : session) :
  browserWindows (emit who s) = browserWindows s /\
  closed_listeners (emit who s) = closed_listeners s /\
  app_listening (emit who s) = app_listening s.
Proof.
  unfold emit. destruct (get_watcher who s) as [w|]; [|repeat split].
  destruct (Chokidar.emit_change w) as [hs w'].
  rewrite fold_call_handler. destruct who, s; repeat split.
Qed.

Lemma notify_registry (who : subscription) (p : string) (s : session) :
  browserWindows (notify who p s) = browserWindows s /\
  closed_listeners (notify who p s) = closed_listeners s /\
  app_listening (notify who p s) = app_listening s.
Proof.
  unfold notify. destruct (tracked_by who s p); [apply emit_registry|].
  repeat split.
Qed.

Lemma change_registry (e : event) (s : session) :
  is_window_event e = false ->
  browserWindows (deliver e s) = browserWindows s /\
  closed_listeners (deliver e s) = closed_listeners s /\
  app_listening (deliver e s) = app_listening s.
Proof.
  destruct e as [bw|bw|who p|p]; cbn [is_window_event deliver];
    try discriminate; intros _.
  - apply emit_registry.
  - destruct (notify_registry the_hardWatcher p (notify the_watcher p s))
      as (-> & -> & ->).
    apply notify_registry.
Qed.

Lemma filter_same_NoDup (bw : window) (l : list window) :
  NoDup l -> In bw l -> filter (same_window bw) l = [bw].
Proof.
  induction 1 as [|x l Hx Hl IH]; cbn [filter]; intro Hin; [contradiction|].
  unfold same_window in *. destruct (Nat.eqb bw x) eqn:E.
  - apply Nat.eqb_eq in E. subst x. f_equal.
    clear IH Hin Hl. induction l as [|y l IH]; [reflexivity|].
    cbn [filter]. destruct (Nat.eqb bw y) eqn:E.
    + apply Nat.eqb_eq in E. subst y. exfalso. apply Hx. left. reflexivity.
    + apply IH. intro H. apply Hx. right. exact H.
  - destruct Hin as [->|Hin]; [rewrite Nat.eqb_refl in E; discriminate|].
    apply IH, Hin.
Qed.

Lemma without_absent (bw : window) (l : list window) :
  ~ In bw l -> without bw l = l.
Proof.
  unfold without, same_window.
  induction l as [|x l IH]; intro H; cbn [filter]; [reflexivity|].
  destruct (Nat.eqb bw x) eqn:E.
  - apply Nat.eqb_eq in E. subst x. exfalso. apply H. left. reflexivity.
  - cbn [negb]. f_equal. apply IH. intro Hin. apply H. right. exact Hin.
Qed.

Lemma without_split (bw : window) (l1 l2 : list window) :
  ~ In bw l1 -> ~ In bw l2 -> without bw (l1 ++ bw :: l2) = l1 ++ l2.
Proof.
  intros H1 H2. unfold without. rewrite filter_app. cbn [filter].
  unfold same_window at 2. rewrite Nat.eqb_refl. cbn [negb].
  fold (without bw l1). fold (without bw l2).
  rewrite (without_absent _ _ H1), (without_absent _ _ H2). reflexivity.
Qed.

Lemma existsb_same_In (bw : window) (l : list window) :
  existsb (same_window bw) l = true <-> In bw l.
Proof.
  rewrite existsb_exists. unfold same_window. split.
  - intros (x & Hx & E). apply Nat.eqb_eq in E. subst x. exact Hx.
  - intro H. exists bw. split; [exact H|apply Nat.eqb_refl].
Qed.

Lemma NoDup_snoc (bw : window) (l : list window) :
  NoDup l -> ~ In bw l -> NoDup (l ++ [bw]).
Proof.
  induction 1 as [|x l Hx Hl IH]; intro Hbw; cbn [app].
  - constructor; [intros []|constructor].
  - constructor.
    + intro Hin. apply in_app_or in Hin. destruct Hin as [Hin|[<-|[]]].
      * exact (Hx Hin).
      * apply Hbw. left. reflexivity.
    + apply IH. intro Hin. apply Hbw. right. exact Hin.
Qed.

(** The invariant behind the registry: one ['closed'] listener per
    window created, no window twice, and the array within the windows
    created. *)
Lemma registry_invariant (es : list event) (seen l : list window)
      (s : session) :
  app_listening s = true -> closed_listeners s = seen ->
  browserWindows s = l -> NoDup seen -> NoDup l -> incl l seen ->
  polite seen l es = true ->
  browserWindows (run es s) = live l es.
Proof.
  revert seen l s.
  induction es as [|e es IH]; intros seen l s Hal Hcl Hbw Hns Hnl Hincl Hp;
    [exact Hbw|].
  cbn [run fold_left]. fold (run es (deliver e s)).
  destruct e as [bw|bw|who p|p]; cbn [polite live] in *.
  - apply andb_true_iff in Hp. destruct Hp as [Hnew Hp].
    apply negb_true_iff in Hnew.
    assert (Hnot : ~ In bw seen).
    { intro H. apply existsb_same_In in H. congruence. }
    assert (Hstep : deliver (BrowserWindowCreated bw) s = onWindowCreated bw s)
      by (cbn [deliver]; rewrite Hal; reflexivity).
    rewrite Hstep.
    apply (IH (seen ++ [bw]) (l ++ [bw])); try exact Hp.
    + exact Hal.
    + cbn. rewrite Hcl. reflexivity.
    + cbn. rewrite Hbw. reflexivity.
    + apply NoDup_snoc; assumption.
    + apply NoDup_snoc; [assumption|]. intro H. apply Hnot, Hincl, H.
    + intros x Hx. apply in_app_or in Hx. apply in_or_app.
      destruct Hx as [Hx|Hx]; [left; apply Hincl, Hx|right; exact Hx].
  - apply andb_true_iff in Hp. destruct Hp as [Hin Hp].
    apply existsb_same_In in Hin.
    destruct (in_split bw l Hin) as (l1 & l2 & El).
    assert (Hsplit : ~ In bw l1 /\ ~ In bw l2).
    { rewrite El in Hnl. apply NoDup_remove_2 in Hnl. split; intro H;
        apply Hnl, in_or_app; [left|right]; exact H. }
    destruct Hsplit as [H1 H2].
    assert (Hstep : deliver (Closed bw) s = onWindowClosed bw s).
    { cbn [deliver]. rewrite Hcl, (filter_same_NoDup bw seen Hns (Hincl bw Hin)).
      reflexivity. }
    assert (Hafter : browserWindows (onWindowClosed bw s) = l1 ++ l2).
    { replace s with (set_browserWindows (l1 ++ bw :: l2) s)
        by (rewrite <- El, <- Hbw; destruct s; reflexivity).
      apply onWindowClosed_present, H1. }
    rewrite Hstep.
    apply (IH seen (without bw l)); try assumption.
    + rewrite El, (without_split bw l1 l2 H1 H2). exact Hafter.
    + rewrite El, (without_split bw l1 l2 H1 H2).
      rewrite El in Hnl. apply NoDup_remove_1 in Hnl. exact Hnl.
    + intros x Hx. apply Hincl. unfold without in Hx.
      apply filter_In in Hx. apply Hx.
  - destruct (change_registry (Change who p) s eq_refl) as (Hb & Hc & Ha).
    apply (IH seen l); try assumption; congruence.
  - destruct (change_registry (FileChanged p) s eq_refl) as (Hb & Hc & Ha).
    apply (IH seen l); try assumption; congruence.
Qed.

Lemma start_registry (glob : list string) (options : Options) :
  app_listening (fst (start glob options)) = true /\
  closed_listeners (fst (start glob options)) = [] /\
  browserWindows (fst (start glob options)) = [] /\
  effects (fst (start glob options)) = [].
Proof.
  unfold start, electronReload, bind, when, fs_existsSync. cbn.
  destruct (electron options) as [exe|]; cbn; [|repeat split].
  destruct (String.eqb exe ""); cbn; [repeat split|].
  destruct (existsSync exe); cbn; [|repeat split].
  destruct (JS.strict_eq_true (forceHardReset options)); cbn; repeat split.
Qed.

(** X4.  After any call of [electronReload], thrown or not, and over any
    history in which the host creates no window twice and closes only
    open windows, [browserWindows] holds exactly the open windows, in the
    order of their creation; file changes in between play no part. *)
Theorem registry_follows_the_host (glob : list string) (options : Options)
    (es : list event) :
  polite [] [] es = true ->
  browserWindows (run es (fst (start glob options))) = live [] es.
Proof.
  intro Hp. destruct (start_registry glob options) as (Ha & Hc & Hb & _).
  apply (registry_invariant es [] []); try assumption.
  - constructor.
  - constructor.
  - intros x [].
Qed.

(** X5.  Called for a window that is in the array, the listener of
    ['closed'] removes the first occurrence of that window and nothing
    else: the windows before and after it keep their places, and the
    trace and the watchers are untouched. *)
Theorem onWindowClosed_first_occurrence (bw : window) (l1 l2 : list window)
    (s : session) :
  browserWindows s = l1 ++ bw :: l2 -> ~ In bw l1 ->
  browserWindows (onWindowClosed bw s) = l1 ++ l2 /\
  effects (onWindowClosed bw s) = effects s /\
  watcher (onWindowClosed bw s) = watcher s /\
  hardWatcher (onWindowClosed bw s) = hardWatcher s.
Proof.
  intros Hs Hnot. split; [|destruct s; repeat split].
  replace s with (set_browserWindows (l1 ++ bw :: l2) s)
    by (rewrite <- Hs; destruct s; reflexivity).
  apply onWindowClosed_present, Hnot.
Qed.

(** The registry part of a session. *)
Lemma fold_onWindowClosed_registry (l : list window) (s s' : session) :
  browserWindows s = browserWindows s' ->
  browserWindows (fold_left (fun acc b => onWindowClosed b acc) l s)
  = browserWindows (fold_left (fun acc b => onWindowClosed b acc) l s') /\
  closed_listeners (fold_left (fun acc b => onWindowClosed b acc) l s)
  = closed_listeners s /\
  app_listening (fold_left (fun acc b => onWindowClosed b acc) l s)
  = app_listening s.
Proof.
  revert s s'. induction l as [|b l IH]; intros s s' H; cbn [fold_left].
  - repeat split. exact H.
  - destruct (IH (onWindowClosed b s) (onWindowClosed b s')) as (H1 & H2 & H3).
    + unfold onWindowClosed. cbn. rewrite H. reflexivity.
    + rewrite H1, H2, H3. destruct s; repeat split.
Qed.

Lemma window_event_registry (e : event) (s s' : session) :
  is_window_event e = true ->
  app_listening s = app_listening s' ->
  closed_listeners s = closed_listeners s' ->
  browserWindows s = browserWindows s' ->
  app_listening (deliver e s) = app_listening (deliver e s') /\
  closed_listeners (deliver e s) = closed_listeners (deliver e s') /\
  browserWindows (deliver e s) = browserWindows (deliver e s').
Proof.
  intros He Ha Hc Hb.
  destruct e as [bw|bw|who p|p]; cbn [is_window_event] in He;
    try discriminate; cbn [deliver].
  - rewrite <- Ha. destruct (app_listening s) eqn:E.
    + cbn. rewrite Hc, Hb. repeat split. congruence.
    + repeat split; congruence.
  - rewrite <- Hc.
    destruct (fold_onWindowClosed_registry
                (filter (same_window bw) (closed_listeners s)) s s' Hb)
      as (H1 & H2 & H3).
    destruct (fold_onWindowClosed_registry
                (filter (same_window bw) (closed_listeners s)) s' s' eq_refl)
      as (_ & H2' & H3').
    rewrite H1, H2, H3, H2', H3'. repeat split; assumption.
Qed.

Lemma run_registry (es : list event) (s s' : session) :
  app_listening s = app_listening s' ->
  closed_listeners s = closed_listeners s' ->
  browserWindows s = browserWindows s' ->
  browserWindows (run es s)
  = browserWindows (run (filter is_window_event es) s').
Proof.
  revert s s'. induction es as [|e es IH]; intros s s' Ha Hc Hb; [exact Hb|].
  cbn [run fold_left filter]. fold (run es (deliver e s)).
  destruct (is_window_event e) eqn:E.
  - cbn [fold_left]. fold (run (filter is_window_event es) (deliver e s')).
    destruct (window_event_registry e s s' E Ha Hc Hb) as (H1 & H2 & H3).
    apply IH; assumption.
  - destruct (change_registry e s E) as (H1 & H2 & H3).
    apply IH; congruence.
Qed.

(** X6.  File changes never touch the registry: after any history, in
    any session, [browserWindows] is what the window events of that
    history alone would have left. *)
Theorem registry_ignores_changes (es : list event) (s : session) :
  browserWindows (run es s)
  = browserWindows (run (filter is_window_event es) s).
Proof. apply run_registry; reflexivity. Qed.

(** X7.  Window events are silent: a history of creations and closings
    adds nothing to the trace, no reload and no respawn, and leaves both
    watchers as they were. *)
Theorem window_events_are_silent (es : list event) (s : session) :
  forallb is_window_event es = true ->
  effects (run es s) = effects s /\
  watcher (run es s) = watcher s /\
  hardWatcher (run es s) = hardWatcher s.
Proof.
  revert s. induction es as [|e es IH]; intros s H; [repeat split|].
  cbn [forallb] in H. apply andb_true_iff in H. destruct H as [He Hes].
  cbn [run fold_left]. fold (run es (deliver e s)).
  destruct (IH (deliver e s) Hes) as (-> & -> & ->).
  destruct e as [bw|bw|who p|p]; cbn [is_window_event] in He;
    try discriminate; cbn [deliver].
  - destruct (app_listening s); destruct s; repeat split.
  - destruct (fold_onWindowClosed
                (filter (same_window bw) (closed_listeners s)) s)
      as (H1 & H2 & H3 & _).
    repeat split; assumption.
Qed.

(** X8.  The setup is fixed once the call is over: in any session and
    over any history, each watcher keeps its patterns, its ignore list
    and its open or closed state, so it tracks the same paths at every
    moment; a closed watcher is never reopened and an open one never
    closed. *)
Theorem setup_is_fixed (es : list event) (s : session) (who : subscription)
    (p : string) :
  tracked_by who (run es s) p = tracked_by who s p /\
  is_open who (run es s) = is_open who s /\
  ignore_list who (run es s) = ignore_list who s /\
  option_map (@Chokidar.paths handler) (get_watcher who (run es s))
  = option_map (@Chokidar.paths handler) (get_watcher who s).
Proof.
  pose proof (run_config who es s) as H.
  split; [apply tracked_by_config, H|].
  split; [apply is_open_config, H|].
  split; [apply ignore_list_run|].
  unfold config in H.
  destruct (get_watcher who (run es s)), (get_watcher who s);
    cbn in *; try discriminate; [|reflexivity].
  injection H as -> _ _. reflexivity.
Qed.

(** X9.  [electronReload] throws exactly when [options.electron] is a
    non-empty string that names no file, and it creates the hard watcher
    exactly when [options.electron] is a non-empty string that names a
    file; the general watcher is created in every case. *)
Theorem electronReload_completion (glob : list string) (options : Options) :
  snd (start glob options)
  = match electron options with
    | Some exe =>
        if negb (String.eqb exe "") && negb (existsSync exe)
        then Thrown "Provided electron executable cannot be found or is not executable!"
        else Normal tt
    | None => Normal tt
    end /\
  match hardWatcher (fst (start glob options)) with
  | Some _ => true
  | None => false
  end
  = match electron options with
    | Some exe => negb (String.eqb exe "") && existsSync exe
    | None => false
    end /\
  match watcher (fst (start glob options)) with
  | Some _ => true
  | None => false
  end = true.
Proof.
  unfold start, electronReload, bind, when, fs_existsSync. cbn.
  destruct (electron options) as [exe|]; cbn; [|repeat split].
  destruct (String.eqb exe ""); cbn; [repeat split|].
  destruct (existsSync exe); cbn; [|repeat split].
  destruct (JS.strict_eq_true (forceHardReset options)); cbn; repeat split.
Qed.

(* ------------------------------------------------------------------ *)
(** ** What the default ignore list lets through *)

Lemma inner_dot_skip (c : ascii) (p : string) :
  has_inner_dot_segment p = true ->
  has_inner_dot_segment (String c p) = true.
Proof.
  unfold has_inner_dot_segment. cbn [segments].
  destruct (is_separator c).
  - cbn [tl]. destruct (segments p) as [|seg more]; cbn [tl existsb].
    + discriminate.
    + intros ->. apply orb_true_r.
  - destruct (segments p) as [|seg more]; cbn [tl]; [discriminate|].
    intro H. exact H.
Qed.

(** Where the second alternative of [ignoredPaths] matches, there is a
    dot-prefixed segment behind a separator. *)
Lemma test_inner_dot_segment (p : string) :
  Regex.test (Regex.Cat (Regex.Class [slash; backslash]) (Regex.Lit ".")) p
  = true ->
  has_inner_dot_segment p = true.
Proof.
  induction p as [|c rest IH]; cbn [Regex.test].
  - cbn. discriminate.
  - intro H. apply orb_true_iff in H. destruct H as [H|H].
    + unfold Regex.matches_here in H. cbn [Regex.matches_at] in H.
      destruct (existsb (Ascii.eqb c) [slash; backslash]) eqn:Hc;
        [|cbn in H; discriminate].
      cbn [flat_map] in H.
      destruct rest as [|d rest']; [cbn in H; discriminate|].
      cbn [Regex.matches_at Regex.strip_prefix app] in H.
      destruct (Ascii.eqb "."%char d) eqn:Hd; [|cbn in H; discriminate].
      apply Ascii.eqb_eq in Hd. subst d.
      unfold has_inner_dot_segment. cbn [segments].
      assert (Hsep : is_separator c = true).
      { unfold is_separator. cbn [existsb] in Hc.
        rewrite orb_false_r in Hc. exact Hc. }
      rewrite Hsep. cbn [tl].
      change (is_separator "."%char) with false. cbn iota.
      destruct (segments rest'); reflexivity.
    + apply inner_dot_skip, IH, H.
Qed.

(** X10.  [ignoredPaths] matches a path exactly when the path contains
    the text [node_modules] or has a dot-prefixed segment right behind a
    separator: a dot inside a file name, or at the very start of a
    relative path, does not make a path ignored. *)
Theorem ignoredPaths_exactly (p : string) :
  Regex.test ignoredPaths p
  = Regex.test (Regex.Lit "node_modules") p || has_inner_dot_segment p.
Proof.
  unfold ignoredPaths. rewrite test_alt. f_equal.
  apply eq_true_iff_eq. split.
  - apply test_inner_dot_segment.
  - apply inner_dot_segment_test.
Qed.


(** X12.  With no [ignored] key in the options, a main file whose path
    contains [node_modules] or has a dot-prefixed segment behind a
    separator is never tracked by the hard watcher, in any mode: a change
    of the main file on disk then reaches no hard-reset handler. *)
Theorem hidden_main_file_is_not_watched (glob : list string)
    (options : Options) (es : list event) :
  ignored options = None ->
  Regex.test (Regex.Lit "node_modules") mainFile = true \/
  has_inner_dot_segment mainFile = true ->
  tracked_by the_hardWatcher (run es (fst (start glob options))) mainFile
  = false /\
  fires the_hardWatcher (run es (fst (start glob options)))
        (FileChanged mainFile) = false.
Proof.
  intros Hnone Hp.
  assert (Ht : tracked_by the_hardWatcher (run es (fst (start glob options)))
                 mainFile = false).
  { rewrite tracked_by_run. unfold tracked_by, Chokidar.tracks.
    cbn [get_watcher].
    destruct (hardWatcher (fst (start glob options))) as [w|] eqn:E;
      [|reflexivity].
    destruct (start_hardWatcher glob options w E) as (-> & _ & _).
    unfold hardWatcher_options, Object_assign_ignored. rewrite Hnone.
    cbn [Chokidar.arrify Chokidar.anymatch existsb Chokidar.matcher_matches].
    rewrite ignoredPaths_exactly.
    destruct Hp as [-> | ->]; rewrite ?orb_true_r; cbn;
      apply andb_false_r. }
  split; [exact Ht|]. cbn [fires]. exact Ht.
Qed.

(* ------------------------------------------------------------------ *)
(** ** Soft reloads beside the hard reset *)

Lemma filter_reload_sweep (l : list window) :
  filter is_reload (map ReloadIgnoringCache l) = map ReloadIgnoringCache l.
Proof. induction l as [|x l IH]; cbn; [|rewrite IH]; reflexivity. Qed.

Lemma filter_reload_respawn (e m : option string)
      (ea aa : option (list string)) :
  filter is_reload (hardReset e m ea aa) = [].
Proof.
  unfold hardReset. cbn. destruct (JS.strict_eq_str m "exit"); reflexivity.
Qed.

(** X13.  With an executable on disk and no forced hard reset, the soft
    reset keeps working beside the hard reset: at any moment, before or
    after the hard-reset handler has fired, a change of a file adds one
    sweep over [browserWindows] to the reloads of the trace when the
    general watcher tracks the file, and no reload otherwise. *)
Theorem soft_reload_beside_hard_reset (glob : list string) (options : Options)
    (exe : string) (es : list event) (p : string) :
  electron options = Some exe -> exe <> "" -> existsSync exe = true ->
  JS.strict_eq_true (forceHardReset options) = false ->
  filter is_reload
    (effects (deliver (FileChanged p) (run es (fst (start glob options)))))
  = filter is_reload (effects (run es (fst (start glob options))))
      ++ (if tracked_by the_watcher (run es (fst (start glob options))) p
          then map ReloadIgnoringCache
                   (browserWindows (run es (fst (start glob options))))
          else []).
Proof.
  intros He Hne Hx Hf.
  rewrite (start_hard glob options exe He Hne Hx Hf). cbn [fst].
  set (wg := Chokidar.on softResetHandler
               (Chokidar.watch glob (watcher_options options))).
  set (wh := Chokidar.watch [mainFile] (hardWatcher_options options)).
  set (s0 := mkSession [] (Some wg) _ true [] _ []).
  assert (Hl : Chokidar.listeners wg
               = [Chokidar.mkListener softResetHandler false]) by reflexivity.
  assert (Hs0 : shape wg wh (hardResetHandler options) (Some true) s0)
    by (split; reflexivity).
  destruct (run_shape wg wh _ _ _ _ Hl es (Some true) s0 Hs0) as [Hs _].
  destruct (deliver_shape wg wh _ _ _ _ Hl _ _ (FileChanged p) Hs) as [_ ->].
  rewrite !filter_app. cbn [fires]. f_equal.
  replace (filter is_reload
             match option_map _ (Some true) with
             | Some true => _
             | _ => []
             end) with (@nil effect).
  - rewrite app_nil_r.
    destruct (tracked_by the_watcher (run es s0) p); [|reflexivity].
    apply filter_reload_sweep.
  - cbn [option_map].
    destruct (true && negb (existsb (fires the_hardWatcher s0) es));
      [|reflexivity].
    destruct (tracked_by the_hardWatcher (run es s0) p); [|reflexivity].
    symmetry. apply filter_reload_respawn.
Qed.

(** X14.  After [electronReload] has thrown for an executable that is
    not on disk, the session it leaves behind is a soft-reset session:
    over any history there is no hard watcher and the trace holds no
    spawn, unref, quit or exit, and every change of a file the general
    watcher tracks reloads each window of [browserWindows]. *)
Theorem thrown_call_leaves_soft_reset (glob : list string) (options : Options)
    (exe : string) (es : list event) (p : string) :
  electron options = Some exe -> exe <> "" -> existsSync exe = false ->
  hardWatcher (run es (fst (start glob options))) = None /\
  filter is_hard (effects (run es (fst (start glob options)))) = [] /\
  (tracked_by the_watcher (run es (fst (start glob options))) p = true ->
   effects (deliver (FileChanged p) (run es (fst (start glob options))))
   = effects (run es (fst (start glob options)))
       ++ map ReloadIgnoringCache
              (browserWindows (run es (fst (start glob options))))).
Proof.
  intros He Hne Hx.
  rewrite (start_missing glob options exe He Hne Hx). cbn [fst].
  set (wg := Chokidar.on softResetHandler
               (Chokidar.watch glob (watcher_options options))).
  set (s0 := mkSession [] (Some wg) None true [] _ []).
  assert (Hl : Chokidar.listeners wg
               = [Chokidar.mkListener softResetHandler false]) by reflexivity.
  assert (Hs0 : shape wg wg (createHardresetHandler None None None None) None s0)
    by (split; reflexivity).
  destruct (run_shape wg wg None None None None Hl es None s0 Hs0) as [Hs Heff].
  pose proof (deliver_shape wg wg None None None None Hl None _ (FileChanged p) Hs)
    as [_ Hfile].
  destruct Hs as [_ Hh]. cbn [option_map] in Hh.
  split; [exact Hh|]. split; [rewrite Heff; reflexivity|].
  intro Htr. rewrite Hfile. cbn [fires]. rewrite Htr, app_nil_r. reflexivity.
Qed.

(** X15.  Called for a window that is not in the array, the listener of
    ['closed'] does not throw and does not leave the array alone: it
    removes the last window, whichever it is, and touches nothing else;
    only an empty array stays as it is. *)
Theorem onWindowClosed_absent_drops_last (bw : window) (s : session) :
  ~ In bw (browserWindows s) ->
  browserWindows (onWindowClosed bw s) = removelast (browserWindows s) /\
  effects (onWindowClosed bw s) = effects s /\
  closed_listeners (onWindowClosed bw s) = closed_listeners s.
Proof.
  intro Hnot. split; [apply onWindowClosed_absent, Hnot|].
  destruct s; repeat split.
Qed.

End Main.

(* ------------------------------------------------------------------ *)
(** ** The hard-reset handler *)

(** C3.  Called with the arrays [hostProcessArgs] and [appArgs], the
    hard-reset handler spawns the executable, detached and with inherited
    standard streams, on the arguments
    [hostProcessArgs ++ [appPath] ++ appArgs]; with [--inspect], [--flag]
    and the root [/app] the only spawn it adds to the trace has the
    arguments [--inspect], [/app], [--flag]. *)
Theorem C3_spawn_argument_list :
  (forall (appPath : string) (exe method : option string)
          (hostProcessArgs appArgs : list string) (s : session),
     effects (call_handler appPath
                (createHardresetHandler exe method
                   (Some hostProcessArgs) (Some appArgs)) s)
     = effects s
         ++ [ Spawn exe (hostProcessArgs ++ [appPath] ++ appArgs) true "inherit";
              Unref;
              if JS.strict_eq_str method "exit" then AppExit else AppQuit ]) /\
  (forall (exe method : option string) (s : session),
     filter is_spawn
       (effects (call_handler "/app"
                   (createHardresetHandler exe method
                      (Some ["--inspect"]) (Some ["--flag"])) s))
     = filter is_spawn (effects s)
         ++ [ Spawn exe ["--inspect"; "/app"; "--flag"] true "inherit" ]).
Proof.
  split.
  - intros appPath exe method hostProcessArgs appArgs s.
    cbn. unfold hardReset, JS.concat. cbn [JS.or_else].
    rewrite <- app_assoc. reflexivity.
  - intros exe method s. cbn. rewrite filter_app. cbn.
    destruct (JS.strict_eq_str method "exit"); reflexivity.
Qed.

Lemma strict_eq_str_false (method : option string) (lit : string) :
  method <> Some lit -> JS.strict_eq_str method lit = false.
Proof.
  destruct method as [m|]; cbn; [|reflexivity].
  intro H. apply String.eqb_neq. intro E. apply H. rewrite E. reflexivity.
Qed.

(** C6.  The hard-reset handler ends with [app.exit()] when the reset
    method is the string [exit], and with [app.quit()] for every other
    value of the reset method, the missing one included. *)
Theorem C6_exit_or_quit (appPath : string) (exe : option string)
    (eArgv aArgv : option (list string)) (s : session) :
  effects (call_handler appPath
             (createHardresetHandler exe (Some "exit") eArgv aArgv) s)
  = effects s
      ++ [ Spawn exe (JS.or_else eArgv [] ++ [appPath] ++ JS.or_else aArgv [])
                 true "inherit";
           Unref; AppExit ] /\
  forall method : option string,
    method <> Some "exit" ->
    effects (call_handler appPath
               (createHardresetHandler exe method eArgv aArgv) s)
    = effects s
        ++ [ Spawn exe (JS.or_else eArgv [] ++ [appPath] ++ JS.or_else aArgv [])
                   true "inherit";
             Unref; AppQuit ].
Proof.
  split.
  - cbn. unfold hardReset, JS.concat. rewrite <- app_assoc. reflexivity.
  - intros method Hm. cbn. unfold hardReset, JS.concat.
    rewrite (strict_eq_str_false method "exit" Hm), <- app_assoc. reflexivity.
Qed.

(* ------------------------------------------------------------------ *)
(** ** The model at work

    The application lives in [/app], its main file is [/app/main.js],
    the only executable on disk is [/usr/bin/electron], and the call
    watches [/app/src]. *)

(** C6 at the default reset method: the handler quits. *)
Lemma C6_witness :
  (None : option string) <> Some "exit" /\
  effects (call_handler "/app"
             (createHardresetHandler (Some "/usr/bin/electron") None
                (Some ["--inspect"]) None) fresh)
  = [ Spawn (Some "/usr/bin/electron") ["--inspect"; "/app"] true "inherit";
      Unref; AppQuit ].
Proof.
  split; [discriminate|].
  apply (proj2 (C6_exit_or_quit "/app" (Some "/usr/bin/electron")
                  (Some ["--inspect"]) None fresh) None).
  discriminate.
Defined.

(** C8 with two windows open: a change under the glob reloads both, in
    the order of their creation. *)
Lemma C8_witness :
  JS.truthy (electron no_options) = false /\
  effects
    (deliver "/app" Chokidar.covers_path (FileChanged "/app/src/a.js")
       (run "/app" Chokidar.covers_path
          [BrowserWindowCreated 1%nat; BrowserWindowCreated 2%nat]
          (fst (start "/app/main.js" (String.eqb "/usr/bin/electron")
                  ["/app/src"] no_options))))
  = [ReloadIgnoringCache 1%nat; ReloadIgnoringCache 2%nat].
Proof.
  split; [reflexivity|].
  destruct (C8_soft_reload_only "/app" "/app/main.js"
              (String.eqb "/usr/bin/electron") Chokidar.covers_path
              ["/app/src"] no_options
              [BrowserWindowCreated 1%nat; BrowserWindowCreated 2%nat]
              "/app/src/a.js" eq_refl)
    as (_ & _ & _ & Hfile & _).
  rewrite Hfile; reflexivity.
Defined.

(** C9 with [forceHardReset: true] against [forceHardReset: false]. *)
Lemma C9_witness :
  JS.truthy None = false /\
  start "/app/main.js" (String.eqb "/usr/bin/electron") ["/app/src"]
        (mkOptions None None None None (Some true) None)
  = start "/app/main.js" (String.eqb "/usr/bin/electron") ["/app/src"]
          (mkOptions None None None None (Some false) None).
Proof.
  split; [reflexivity|].
  apply (proj1 (C9_force_without_executable "/app" "/app/main.js"
                  (String.eqb "/usr/bin/electron") Chokidar.covers_path
                  ["/app/src"] None None None None (Some false) None eq_refl)).
Defined.

(** C2 with the executable [/nonexistent]. *)
Lemma C2_witness :
  (electron (mkOptions (Some "/nonexistent") None None None None None)
   = Some "/nonexistent" /\
   "/nonexistent" <> "" /\
   String.eqb "/usr/bin/electron" "/nonexistent" = false) /\
  snd (start "/app/main.js" (String.eqb "/usr/bin/electron") ["/app/src"]
             (mkOptions (Some "/nonexistent") None None None None None))
  = Thrown "Provided electron executable cannot be found or is not executable!".
Proof.
  split; [split; [reflexivity | split; [discriminate | reflexivity]] |].
  apply (proj1 (C2_missing_executable_throws "/app/main.js"
                  (String.eqb "/usr/bin/electron") ["/app/src"]
                  (mkOptions (Some "/nonexistent") None None None None None)
                  "/nonexistent" eq_refl
                  ltac:(discriminate) eq_refl)).
Defined.

(** C2, as stated, fails: after the call has thrown, the general watcher
    exists and is open, and a change under the glob reloads the open
    window; and with the empty string as executable path, which names no
    file, the call does not throw at all. *)
Lemma C2_counterexample :
  snd (start "/app/main.js" (fun _ => false) ["/app/src"]
             (mkOptions (Some "/nonexistent") None None None None None))
  = Thrown "Provided electron executable cannot be found or is not executable!" /\
  is_open the_watcher
    (fst (start "/app/main.js" (fun _ => false) ["/app/src"]
                (mkOptions (Some "/nonexistent") None None None None None)))
  = true /\
  effects
    (run "/app" Chokidar.covers_path
       [BrowserWindowCreated 1%nat; FileChanged "/app/src/a.js"]
       (fst (start "/app/main.js" (fun _ => false) ["/app/src"]
                   (mkOptions (Some "/nonexistent") None None None None None))))
  = [ReloadIgnoringCache 1%nat] /\
  snd (start "/app/main.js" (fun _ => false) ["/app/src"]
             (mkOptions (Some "") None None None None None))
  = Normal tt.
Proof. repeat split; reflexivity. Qed.

(** C10 with [ignored: []] and an executable on disk: a file below
    [node_modules] is tracked by the general watcher. *)
Lemma C10_witness :
  ignored (mkOptions (Some "/usr/bin/electron") None None None None
                     (Some (Chokidar.IArray [])))
  = Some (Chokidar.IArray []) /\
  Chokidar.anymatch
    (ignore_list the_hardWatcher
       (run "/app" Chokidar.covers_path [FileChanged "/app/src/a.js"]
          (fst (start "/app/main.js" (String.eqb "/usr/bin/electron")
                  ["/app/src"]
                  (mkOptions (Some "/usr/bin/electron") None None None None
                             (Some (Chokidar.IArray [])))))))
    "/app/src/node_modules/x/index.js" = false.
Proof.
  split; [reflexivity|].
  apply (proj2 (proj2 (C10_user_ignored_replaces_defaults "/app" "/app/main.js"
                  (String.eqb "/usr/bin/electron") Chokidar.covers_path
                  ["/app/src"]
                  (mkOptions (Some "/usr/bin/electron") None None None None
                             (Some (Chokidar.IArray [])))
                  (Chokidar.IArray []) eq_refl))).
  reflexivity.
Defined.

(** C7 with the default options: a file in a hidden directory below the
    glob is not tracked. *)
Lemma C7_witness :
  (ignored no_options = None /\
   has_inner_dot_segment "/app/src/.cache/a.js" = true) /\
  tracked_by Chokidar.covers_path the_watcher
    (run "/app" Chokidar.covers_path [BrowserWindowCreated 1%nat]
       (fst (start "/app/main.js" (String.eqb "/usr/bin/electron")
               ["/app/src"] no_options)))
    "/app/src/.cache/a.js" = false.
Proof.
  split; [split; reflexivity|].
  apply (proj2 (C7_default_ignore_rules "/app" "/app/main.js"
                  (String.eqb "/usr/bin/electron") Chokidar.covers_path
                  ["/app/src"] no_options [BrowserWindowCreated 1%nat]
                  "/app/src/.cache/a.js" eq_refl
                  (or_intror (or_intror (or_introl eq_refl))))).
Defined.

(** C7, as stated, fails: watching ["."], the path [.env] has a
    dot-prefixed segment and is tracked by the general watcher, because
    no separator precedes the dot; and when the options bring
    [ignored: []], a file below [node_modules] is tracked as well. *)
Lemma C7_counterexample :
  has_dot_segment ".env" = true /\
  Regex.test ignoredPaths ".env" = false /\
  tracked_by Chokidar.covers_path the_watcher
    (fst (start "/app/main.js" (fun _ => false) ["."] no_options))
    ".env" = true /\
  has_segment "node_modules" "node_modules/a.js" = true /\
  tracked_by Chokidar.covers_path the_watcher
    (fst (start "/app/main.js" (fun _ => false) ["."]
                (mkOptions None None None None None
                           (Some (Chokidar.IArray [])))))
    "node_modules/a.js" = true.
Proof. repeat split; reflexivity. Qed.

(** C4 with [forceHardReset: true]: a window is open, two files below
    the glob change, and the trace is one hard reset and no reload. *)
Lemma C4_witness :
  (electron (mkOptions (Some "/usr/bin/electron") None (Some ["--inspect"])
                       (Some ["--flag"]) (Some true) None)
   = Some "/usr/bin/electron" /\
   "/usr/bin/electron" <> "" /\
   String.eqb "/usr/bin/electron" "/usr/bin/electron" = true /\
   forceHardReset (mkOptions (Some "/usr/bin/electron") None
                             (Some ["--inspect"]) (Some ["--flag"])
                             (Some true) None)
   = Some true) /\
  effects
    (run "/app" Chokidar.covers_path
       [BrowserWindowCreated 1%nat; FileChanged "/app/src/a.js";
        FileChanged "/app/src/b.js"]
       (fst (start "/app/main.js" (String.eqb "/usr/bin/electron")
               ["/app/src"]
               (mkOptions (Some "/usr/bin/electron") None (Some ["--inspect"])
                          (Some ["--flag"]) (Some true) None))))
  = [ Spawn (Some "/usr/bin/electron") ["--inspect"; "/app"; "--flag"]
            true "inherit";
      Unref; AppQuit ].
Proof.
  split;
    [split; [reflexivity | split; [discriminate | split; reflexivity]] |].
  destruct (C4_forced_hard_reset "/app" "/app/main.js"
              (String.eqb "/usr/bin/electron") Chokidar.covers_path
              ["/app/src"]
              (mkOptions (Some "/usr/bin/electron") None (Some ["--inspect"])
                         (Some ["--flag"]) (Some true) None)
              "/usr/bin/electron" eq_refl ltac:(discriminate) eq_refl eq_refl)
    as (_ & _ & _ & _ & _ & Hrun & _).
  rewrite Hrun. reflexivity.
Defined.

(** C5 without [forceHardReset]: the main file changes twice, with a
    change below the glob in between, and the trace holds one hard
    reset. *)
Lemma C5_witness :
  (electron (mkOptions (Some "/usr/bin/electron") (Some "exit") None None
                       None None)
   = Some "/usr/bin/electron" /\
   "/usr/bin/electron" <> "" /\
   String.eqb "/usr/bin/electron" "/usr/bin/electron" = true /\
   JS.strict_eq_true
     (forceHardReset (mkOptions (Some "/usr/bin/electron") (Some "exit")
                                None None None None))
   = false) /\
  filter is_hard
    (effects
       (run "/app" Chokidar.covers_path
          [BrowserWindowCreated 1%nat; FileChanged "/app/main.js";
           FileChanged "/app/src/a.js"; FileChanged "/app/main.js"]
          (fst (start "/app/main.js" (String.eqb "/usr/bin/electron")
                  ["/app/src"]
                  (mkOptions (Some "/usr/bin/electron") (Some "exit")
                             None None None None)))))
  = [ Spawn (Some "/usr/bin/electron") ["/app"] true "inherit";
      Unref; AppExit ].
Proof.
  split;
    [split; [reflexivity | split; [discriminate | split; reflexivity]] |].
  destruct (C5_hard_reset_fires_once "/app" "/app/main.js"
              (String.eqb "/usr/bin/electron") Chokidar.covers_path
              ["/app/src"]
              (mkOptions (Some "/usr/bin/electron") (Some "exit")
                         None None None None)
              "/usr/bin/electron" eq_refl ltac:(discriminate) eq_refl eq_refl)
    as (_ & _ & _ & Hrun & _).
  rewrite Hrun. reflexivity.
Defined.

(** The same history, in full: the hard reset happens at the first
    change of the main file, the change below the glob reloads the
    window, and the second change of the main file adds nothing. *)
Example hard_reset_history :
  effects
    (run "/app" Chokidar.covers_path
       [BrowserWindowCreated 1%nat; FileChanged "/app/main.js";
        FileChanged "/app/src/a.js"; FileChanged "/app/main.js"]
       (fst (start "/app/main.js" (String.eqb "/usr/bin/electron")
               ["/app/src"]
               (mkOptions (Some "/usr/bin/electron") (Some "exit")
                          None None None None))))
  = [ Spawn (Some "/usr/bin/electron") ["/app"] true "inherit";
      Unref; AppExit; ReloadIgnoringCache 1%nat ].
Proof. reflexivity. Qed.

(** The registry at work: a window that is created and closed once
    leaves the array, and a later change reloads the others only. *)
Example closed_window_is_not_reloaded :
  effects
    (run "/app" Chokidar.covers_path
       [BrowserWindowCreated 1%nat; BrowserWindowCreated 2%nat;
        Closed 1%nat; FileChanged "/app/src/a.js"]
       (fst (start "/app/main.js" (String.eqb "/usr/bin/electron")
               ["/app/src"] no_options)))
  = [ReloadIgnoringCache 2%nat].
Proof. reflexivity. Qed.

(** C4, as stated, fails: with [forceHardReset: true] and the executable
    [/nonexistent], which is set but not on disk, the call throws before
    it reaches [watcher.close()]; the general watcher stays open, and a
    change below the glob reloads the open window. *)
Lemma C4_counterexample :
  snd (start "/app/main.js" (String.eqb "/usr/bin/electron") ["/app/src"]
             (mkOptions (Some "/nonexistent") None None None (Some true) None))
  = Thrown "Provided electron executable cannot be found or is not executable!" /\
  is_open the_watcher
    (fst (start "/app/main.js" (String.eqb "/usr/bin/electron") ["/app/src"]
                (mkOptions (Some "/nonexistent") None None None (Some true)
                           None)))
  = true /\
  hardWatcher
    (fst (start "/app/main.js" (String.eqb "/usr/bin/electron") ["/app/src"]
                (mkOptions (Some "/nonexistent") None None None (Some true)
                           None)))
  = None /\
  effects
    (run "/app" Chokidar.covers_path
       [BrowserWindowCreated 1%nat; FileChanged "/app/src/a.js"]
       (fst (start "/app/main.js" (String.eqb "/usr/bin/electron")
               ["/app/src"]
               (mkOptions (Some "/nonexistent") None None None (Some true)
                          None))))
  = [ReloadIgnoringCache 1%nat].
Proof. repeat split; reflexivity. Qed.

(** C5, as stated, fails twice.  With the application below a hidden
    directory, an executable on disk and the default options, the hard
    watcher ignores the main file, which its own pattern covers: the
    main file changes twice and nothing is spawned.  And with the
    executable [/nonexistent], set but not on disk, the call throws
    before the hard watcher exists: neither a change of the main file nor
    a ['change'] sent to the hard watcher spawns anything. *)
Lemma C5_counterexample :
  (Chokidar.covers_path "/home/me/.config/app/main.js"
                        "/home/me/.config/app/main.js" = true /\
   snd (start "/home/me/.config/app/main.js" (String.eqb "/usr/bin/electron")
              ["/home/me/.config/app/src"]
              (mkOptions (Some "/usr/bin/electron") None None None None None))
   = Normal tt /\
   effects
     (run "/home/me/.config/app" Chokidar.covers_path
        [BrowserWindowCreated 1%nat;
         FileChanged "/home/me/.config/app/main.js";
         FileChanged "/home/me/.config/app/main.js"]
        (fst (start "/home/me/.config/app/main.js"
                (String.eqb "/usr/bin/electron") ["/home/me/.config/app/src"]
                (mkOptions (Some "/usr/bin/electron") None None None None
                           None))))
   = []) /\
  (snd (start "/app/main.js" (String.eqb "/usr/bin/electron") ["/app/src"]
              (mkOptions (Some "/nonexistent") None None None None None))
   = Thrown "Provided electron executable cannot be found or is not executable!" /\
   effects
     (run "/app" Chokidar.covers_path
        [BrowserWindowCreated 1%nat; FileChanged "/app/main.js";
         Change the_hardWatcher "/app/main.js"]
        (fst (start "/app/main.js" (String.eqb "/usr/bin/electron")
                ["/app/src"]
                (mkOptions (Some "/nonexistent") None None None None None))))
   = []).
Proof. repeat split; reflexivity. Qed.

(* ------------------------------------------------------------------ *)
(** ** Matching with a group *)

Lemma flat_map_nil {A B : Type} (f : A -> list B) (l : list A) :
  (forall x, In x l -> f x = []) -> flat_map f l = [].
Proof.
  induction l as [|a l IH]; intro H; cbn; [reflexivity|].
  rewrite (H a (or_introl eq_refl)), IH; [reflexivity|].
  intros x Hx. apply H. right. exact Hx.
Qed.

Lemma many_app (p : ascii -> bool) (f b : string) :
  all_chars p f = true ->
  exists longer, Capture.many p (String.append f b) = Capture.many p b ++ longer.
Proof.
  induction f as [|c f IH]; cbn; intro H.
  - exists []. symmetry. apply app_nil_r.
  - apply andb_true_iff in H. destruct H as [Hc Hf]. rewrite Hc.
    destruct (IH Hf) as [longer ->]. eexists. rewrite <- app_assoc. reflexivity.
Qed.

Lemma many_self (p : ascii -> bool) (s : string) :
  exists front, Capture.many p s = front ++ [s].
Proof. destruct s; cbn; [exists []|eexists]; reflexivity. Qed.

Lemma many_in (p : ascii -> bool) (f b : string) :
  all_chars p f = true -> In b (Capture.many p (String.append f b)).
Proof.
  intro H. destruct (many_app p f b H) as [longer ->].
  destruct (many_self p b) as [front ->].
  apply in_or_app. left. apply in_or_app. right. left. reflexivity.
Qed.

Lemma length_append (f b : string) :
  String.length (String.append f b)
  = (String.length f + String.length b)%nat.
Proof. induction f as [|c f IH]; cbn; [|rewrite IH]; reflexivity. Qed.

Lemma substring_append (f b : string) :
  String.substring 0 (String.length f) (String.append f b) = f.
Proof.
  induction f as [|c f IH]; cbn.
  - destruct b; reflexivity.
  - rewrite IH. reflexivity.
Qed.

Lemma consumed_app (f b : string) :
  Capture.consumed (String.append f b) b = f.
Proof.
  unfold Capture.consumed.
  rewrite length_append, Nat.add_sub. apply substring_append.
Qed.

Lemma run_seq_in (a b : Capture.pattern) (s : string)
      (m1 m2 : option string * string) :
  In m1 (Capture.run a s) -> In m2 (Capture.run b (snd m1)) ->
  In (match fst m2 with Some g => Some g | None => fst m1 end, snd m2)
     (Capture.run (Capture.Seq a b) s).
Proof.
  intros H1 H2. cbn [Capture.run]. apply in_flat_map. exists m1. split; [exact H1|].
  apply in_map_iff. exists m2. split; [reflexivity|exact H2].
Qed.

Lemma run_seq_nil (a b : Capture.pattern) (s : string) :
  (forall m, In m (Capture.run a s) -> Capture.run b (snd m) = []) ->
  Capture.run (Capture.Seq a b) s = [].
Proof.
  intro H. cbn [Capture.run]. apply flat_map_nil. intros m Hm.
  rewrite (H m Hm). reflexivity.
Qed.

(** A pattern without a group reports no group. *)
Lemma groupless_none (r : Capture.pattern) :
  Capture.groupless r = true ->
  forall s m, In m (Capture.run r s) -> fst m = None.
Proof.
  induction r as [c|p|p| |a IHa b IHb|a IHa]; cbn [Capture.groupless];
    intros Hg s m Hm.
  - cbn in Hm. destruct s as [|d rest]; [contradiction|].
    destruct (Ascii.eqb c d); [|contradiction].
    destruct Hm as [<-|[]]. reflexivity.
  - cbn in Hm. destruct s as [|d rest]; [contradiction|].
    destruct (p d); [|contradiction].
    destruct Hm as [<-|[]]. reflexivity.
  - cbn in Hm. apply in_map_iff in Hm. destruct Hm as (x & <- & _). reflexivity.
  - cbn [Capture.run] in Hm. apply in_map_iff in Hm.
    destruct Hm as (x & <- & _). reflexivity.
  - apply andb_true_iff in Hg. destruct Hg as [Ha Hb].
    cbn [Capture.run] in Hm. apply in_flat_map in Hm.
    destruct Hm as (m1 & H1 & Hm). apply in_map_iff in Hm.
    destruct Hm as (m2 & <- & H2). cbn [fst].
    rewrite (IHb Hb _ _ H2). apply (IHa Ha _ _ H1).
  - discriminate.
Qed.

Lemma digit_not_colon (c : ascii) :
  Capture.digit c = true -> Ascii.eqb c ":"%char = false.
Proof.
  intro H. destruct (Ascii.eqb c ":"%char) eqn:E; [|reflexivity].
  apply Ascii.eqb_eq in E. subst c. discriminate H.
Qed.

(** [position] starts with a colon. *)
Lemma position_needs_colon (s : string) :
  starts_with_colon s = false -> Capture.run position s = [].
Proof.
  intro H. unfold position. apply run_seq_nil. intros m Hm.
  cbn [Capture.run] in Hm. destruct s as [|c rest]; [contradiction|].
  cbn [starts_with_colon] in H. rewrite Ascii.eqb_sym, H in Hm. contradiction.
Qed.

(** After some digits and a closing parenthesis, whatever the star of a
    class leaves does not start with a colon. *)
Lemma many_digits_then_paren (ds z t : string) :
  all_chars Capture.digit ds = true ->
  In t (Capture.many Capture.digit (String.append ds (String ")"%char z))) ->
  starts_with_colon t = false.
Proof.
  induction ds as [|d ds IH]; cbn [String.append all_chars Capture.many].
  - intros _ Hin. cbn in Hin. destruct Hin as [<-|[]]. reflexivity.
  - intro H. apply andb_true_iff in H. destruct H as [Hd Hds]. rewrite Hd.
    intro Hin. apply in_app_or in Hin. destruct Hin as [Hin|[<-|[]]].
    + apply IH; assumption.
    + cbn. apply digit_not_colon, Hd.
Qed.

(** [position] leaves nothing that starts with a colon when the digits
    run into a closing parenthesis. *)
Lemma position_then_paren (ds z : string) (m : option string * string) :
  all_chars Capture.digit ds = true ->
  In m (Capture.run position
          (String ":"%char (String.append ds (String ")"%char z)))) ->
  starts_with_colon (snd m) = false.
Proof.
  intros Hds Hm. unfold position in Hm. cbn [Capture.run] in Hm.
  apply in_flat_map in Hm. destruct Hm as (m1 & H1 & Hm).
  cbn in H1. destruct H1 as [<-|[]]. cbn [snd] in Hm.
  apply in_map_iff in Hm. destruct Hm as (m2 & <- & H2). cbn [snd].
  apply in_flat_map in H2. destruct H2 as (m3 & H3 & H2).
  apply in_map_iff in H2. destruct H2 as (m4 & <- & H4). cbn [snd].
  apply in_map_iff in H4. destruct H4 as (t & <- & Ht). cbn [snd].
  destruct ds as [|d ds]; [cbn in H3; contradiction|].
  cbn [String.append Capture.run] in H3.
  cbn [all_chars] in Hds. apply andb_true_iff in Hds. destruct Hds as [Hd Hds].
  rewrite Hd in H3. destruct H3 as [<-|[]]. cbn [snd] in Ht.
  apply (many_digits_then_paren ds z t Hds Ht).
Qed.

(** [position] matches a colon and a non-empty run of digits. *)
Lemma position_in (ds rest : string) :
  ds <> EmptyString -> all_chars Capture.digit ds = true ->
  exists m, In m (Capture.run position (String ":"%char (String.append ds rest)))
            /\ snd m = rest.
Proof.
  intros Hne Hds. destruct ds as [|d ds]; [contradiction|].
  cbn [all_chars] in Hds. apply andb_true_iff in Hds. destruct Hds as [Hd Hds].
  eexists. split.
  - unfold position.
    apply (run_seq_in _ _ _ (None, String.append (String d ds) rest)).
    + cbn. left. reflexivity.
    + cbn [snd].
      apply (run_seq_in _ _ _ (None, String.append ds rest) (None, rest)).
      * cbn. rewrite Hd. left. reflexivity.
      * cbn. apply in_map. apply many_in, Hds.
  - reflexivity.
Qed.

Lemma tail_needs_colon (t : string) :
  starts_with_colon t = false -> Capture.run line_and_column t = [].
Proof.
  intro H. unfold line_and_column. cbn [Capture.run].
  rewrite (position_needs_colon t H). reflexivity.
Qed.

(** One colon and digits before the closing parenthesis are not enough. *)
Lemma tail_needs_two_positions (ds z : string) :
  all_chars Capture.digit ds = true ->
  Capture.run line_and_column
    (String ":"%char (String.append ds (String ")"%char z))) = [].
Proof.
  intro Hds. unfold line_and_column. apply run_seq_nil. intros m Hm.
  cbn [Capture.run].
  rewrite (position_needs_colon _ (position_then_paren ds z m Hds Hm)).
  reflexivity.
Qed.

Lemma tail_matches (L C : string) :
  L <> EmptyString -> all_chars Capture.digit L = true ->
  C <> EmptyString -> all_chars Capture.digit C = true ->
  exists m rest,
    Capture.run line_and_column
      (String ":"%char
         (String.append L (String ":"%char (String.append C ")"))))
    = m :: rest /\ fst m = None.
Proof.
  intros HL HLd HC HCd.
  destruct (position_in L (String ":"%char (String.append C ")")) HL HLd)
    as (m1 & H1 & E1).
  destruct (position_in C ")" HC HCd) as (m2 & H2 & E2).
  assert (Hin : exists m,
             In m (Capture.run line_and_column
                     (String ":"%char
                        (String.append L
                           (String ":"%char (String.append C ")")))))).
  { eexists. unfold line_and_column.
    apply (run_seq_in _ _ _ m1); [exact H1|]. rewrite E1.
    apply (run_seq_in _ _ _ m2 (None, EmptyString)); [exact H2|].
    rewrite E2. cbn. left. reflexivity. }
  destruct Hin as [m Hm].
  destruct (Capture.run line_and_column _) as [|m0 rest] eqn:E;
    [contradiction|].
  exists m0, rest. split; [reflexivity|].
  apply (groupless_none line_and_column eq_refl
           (String ":"%char
              (String.append L (String ":"%char (String.append C ")"))))).
  rewrite E. left. reflexivity.
Qed.

Lemma colon_is_no_terminator (b1 : string) :
  Capture.line_terminator_at (String ":"%char b1) = false.
Proof. reflexivity. Qed.

(** A colon behind a text starts no line terminator that the text did
    not already hold. *)
Lemma terminator_before_colon (c : ascii) (f b1 : string) :
  Capture.line_terminator_at (String c f) = false ->
  Capture.line_terminator_at (String c (String.append f (String ":"%char b1)))
  = false.
Proof.
  intro H. destruct f as [|d [|e f]]; cbn [String.append].
  - cbn [Capture.line_terminator_at] in *.
    apply orb_false_iff in H. destruct H as [-> _].
    destruct b1; cbn [orb andb]; apply andb_false_r.
  - cbn [Capture.line_terminator_at] in *.
    apply orb_false_iff in H. destruct H as [-> _].
    change (Ascii.eqb ":"%char "168"%char) with false.
    change (Ascii.eqb ":"%char "169"%char) with false.
    cbn [orb]. rewrite !andb_false_r. reflexivity.
  - exact H.
Qed.

Lemma dots_app (f b1 : string) :
  Capture.no_line_terminator f = true ->
  exists longer,
    Capture.dots (String.append f (String ":"%char b1))
    = Capture.dots (String ":"%char b1) ++ longer.
Proof.
  induction f as [|c f IH]; intro H.
  - exists []. symmetry. apply app_nil_r.
  - cbn [Capture.no_line_terminator] in H. apply andb_true_iff in H.
    destruct H as [Hc Hf]. apply negb_true_iff in Hc.
    cbn [String.append]. cbn [Capture.dots].
    rewrite (terminator_before_colon c f b1 Hc).
    destruct (IH Hf) as [longer ->]. eexists. rewrite <- app_assoc.
    reflexivity.
Qed.

(** Past a run of digits, every shorter rest fails when every rest of
    what follows does. *)
Lemma dots_all_fail (ds y : string) :
  all_chars Capture.digit ds = true ->
  (forall t, In t (Capture.dots y) -> Capture.run line_and_column t = []) ->
  forall t, In t (Capture.dots (String.append ds y)) ->
            Capture.run line_and_column t = [].
Proof.
  intros Hds Hy. induction ds as [|d ds IH]; cbn [String.append].
  - exact Hy.
  - cbn [all_chars] in Hds. apply andb_true_iff in Hds.
    destruct Hds as [Hd Hds]. cbn [Capture.dots].
    intros t Ht. apply in_app_or in Ht. destruct Ht as [Ht|[<-|[]]].
    + destruct (Capture.line_terminator_at _);
        [contradiction|apply (IH Hds t Ht)].
    + apply tail_needs_colon. cbn. apply digit_not_colon, Hd.
Qed.

(** The group takes as much as it can: with a file name [f] followed by
    one line and one column, it takes [f]. *)
Lemma group_takes_the_file (f L C : string) :
  Capture.no_line_terminator f = true ->
  L <> EmptyString -> all_chars Capture.digit L = true ->
  C <> EmptyString -> all_chars Capture.digit C = true ->
  exists m rest,
    Capture.run
      (Capture.Seq (Capture.Group Capture.Dots) line_and_column)
      (String.append f
         (String ":"%char
            (String.append L (String ":"%char (String.append C ")")))))
    = m :: rest /\ fst m = Some f.
Proof.
  intros Hf HL HLd HC HCd.
  set (b1 := String.append L (String ":"%char (String.append C ")"))).
  set (b := String ":"%char b1).
  set (s := String.append f b).
  cbn [Capture.run]. rewrite map_map. cbn [snd].
  destruct (dots_app f b1 Hf) as [longer Hdots]. fold b in Hdots.
  fold s in Hdots. rewrite Hdots. unfold b at 1. cbn [Capture.dots].
  rewrite colon_is_no_terminator. fold b.
  rewrite !map_app, !flat_map_app.
  rewrite flat_map_nil.
  - cbn [map flat_map app snd fst].
    destruct (tail_matches L C HL HLd HC HCd) as (m0 & rest0 & E & Hnone).
    fold b1 in E. fold b in E. rewrite E. cbn [map app].
    eexists. eexists. split; [reflexivity|]. cbn [fst]. rewrite Hnone.
    unfold s. rewrite consumed_app. reflexivity.
  - intros x Hx. apply in_map_iff in Hx. destruct Hx as (t & <- & Ht).
    cbn [snd]. rewrite (dots_all_fail L (String ":"%char (String.append C ")"))
                          HLd) with (t := t); [reflexivity| |exact Ht].
    intros u Hu. cbn [Capture.dots] in Hu.
    rewrite colon_is_no_terminator in Hu.
    apply in_app_or in Hu. destruct Hu as [Hu|[<-|[]]].
    + apply (dots_all_fail C ")" HCd); [|exact Hu].
      intros v Hv. apply tail_needs_colon.
      cbn in Hv. repeat (destruct Hv as [<-|Hv]; [reflexivity|]).
      contradiction.
    + apply (tail_needs_two_positions C EmptyString HCd).
Qed.

(* ------------------------------------------------------------------ *)
(** ** The main file *)

Lemma callerFrame_needs_paren (c : ascii) (s : string) :
  not_paren c = true -> Capture.run callerFrame (String c s) = [].
Proof.
  unfold not_paren. intro H. apply negb_true_iff in H.
  unfold callerFrame. cbn [Capture.run].
  rewrite Ascii.eqb_sym, H. reflexivity.
Qed.

Lemma exec_skips (pre s : string) :
  all_chars not_paren pre = true ->
  Capture.exec callerFrame (String.append pre s) = Capture.exec callerFrame s.
Proof.
  induction pre as [|c pre IH]; cbn [String.append all_chars]; intro H.
  - reflexivity.
  - apply andb_true_iff in H. destruct H as [Hc Hpre].
    cbn [Capture.exec]. rewrite (callerFrame_needs_paren c _ Hc).
    apply IH, Hpre.
Qed.

Lemma exec_without_paren (line : string) :
  all_chars not_paren line = true -> Capture.exec callerFrame line = None.
Proof.
  induction line as [|c line IH]; cbn [all_chars]; intro H.
  - reflexivity.
  - apply andb_true_iff in H. destruct H as [Hc Hline].
    cbn [Capture.exec]. rewrite (callerFrame_needs_paren c _ Hc).
    apply IH, Hline.
Qed.

Lemma run_chr_seq (c : ascii) (r : Capture.pattern) (s : string) :
  Capture.run (Capture.Seq (Capture.Chr c) r) (String c s)
  = map (fun m => (match fst m with Some g => Some g | None => None end, snd m))
        (Capture.run r s).
Proof.
  cbn [Capture.run]. rewrite Ascii.eqb_refl. cbn [flat_map snd fst].
  apply app_nil_r.
Qed.

Lemma exec_frame (f L C : string) :
  Capture.no_line_terminator f = true ->
  L <> EmptyString -> all_chars Capture.digit L = true ->
  C <> EmptyString -> all_chars Capture.digit C = true ->
  Capture.exec callerFrame
    (String "("%char
       (String.append f
          (String ":"%char
             (String.append L (String ":"%char (String.append C ")"))))))
  = Some (Some f).
Proof.
  intros Hf HL HLd HC HCd.
  destruct (group_takes_the_file f L C Hf HL HLd HC HCd)
    as (m & rest & E & Hm).
  cbn [Capture.exec]. unfold callerFrame. rewrite run_chr_seq, E.
  cbn [map fst]. rewrite Hm. reflexivity.
Qed.

Lemma split_lines_length (s : string) :
  List.length (split_lines s) = S (line_breaks s).
Proof.
  induction s as [|c s IH]; cbn [split_lines line_breaks]; [reflexivity|].
  destruct (Ascii.eqb c newline); cbn [List.length].
  - rewrite IH. reflexivity.
  - destruct (split_lines s); cbn [List.length] in *; [discriminate|].
    exact IH.
Qed.

(** X1.  [getMainFilePath] throws exactly when the stack has fewer than
    three lines, that is, fewer than two line breaks: the third element
    of the split is then [undefined] and [.match] is read off it. *)
Theorem getMainFilePath_throws_iff (stack : string)
    (argv1 mainModule_filename : option string) :
  getMainFilePath stack argv1 mainModule_filename
  = Thrown "TypeError: Cannot read properties of undefined (reading 'match')"
  <-> (line_breaks stack < 2)%nat.
Proof.
  unfold getMainFilePath.
  destruct (nth_error (split_lines stack) 2) as [line|] eqn:E.
  - assert (Hlen : (2 < List.length (split_lines stack))%nat).
    { apply nth_error_Some. rewrite E. discriminate. }
    rewrite split_lines_length in Hlen. split.
    + destruct (negb _); discriminate.
    + intro H. lia.
  - apply nth_error_None in E. rewrite split_lines_length in E. split.
    + intros _. lia.
    + reflexivity.
Qed.

(** X2.  When the third line of the stack has no opening parenthesis,
    the expression of line 18 does not match and the result is
    [process.argv[1]] if that is a non-empty string, and
    [process.mainModule?.filename] otherwise, whatever it is. *)
Theorem getMainFilePath_without_paren (stack line : string)
    (argv1 mainModule_filename : option string) :
  nth_error (split_lines stack) 2 = Some line ->
  all_chars not_paren line = true ->
  getMainFilePath stack argv1 mainModule_filename
  = Normal (if JS.truthy argv1 then argv1 else mainModule_filename).
Proof.
  intros Hline Hno. unfold getMainFilePath.
  rewrite Hline, (exec_without_paren line Hno). reflexivity.
Qed.

(** X3.  When the third line of the stack is some text without an
    opening parenthesis followed by [(file:line:column)], where [file]
    holds no line terminator (LF, CR, U+2028, U+2029) and [line] and
    [column] are non-empty runs of digits, the result is [file]; unless
    [file] is empty, in which case the result is the fallback of X2. *)
Theorem getMainFilePath_reads_the_frame (stack pre file L C : string)
    (argv1 mainModule_filename : option string) :
  nth_error (split_lines stack) 2
  = Some (String.append pre
            (String "("%char
               (String.append file
                  (String ":"%char
                     (String.append L
                        (String ":"%char (String.append C ")"))))))) ->
  all_chars not_paren pre = true ->
  Capture.no_line_terminator file = true ->
  L <> EmptyString -> all_chars Capture.digit L = true ->
  C <> EmptyString -> all_chars Capture.digit C = true ->
  getMainFilePath stack argv1 mainModule_filename
  = Normal (if String.eqb file ""
            then (if JS.truthy argv1 then argv1 else mainModule_filename)
            else Some file).
Proof.
  intros Hline Hpre Hfile HL HLd HC HCd. unfold getMainFilePath.
  rewrite Hline, (exec_skips pre _ Hpre), (exec_frame file L C Hfile HL HLd HC HCd).
  cbn [JS.truthy]. destruct (String.eqb file ""); reflexivity.
Qed.

(* ------------------------------------------------------------------ *)
(** ** More of the model at work *)

(** X1 on a stack of one line. *)
Lemma getMainFilePath_throws_iff_witness :
  (line_breaks "Error" < 2)%nat /\
  getMainFilePath "Error" (Some "/app/main.js") None
  = Thrown "TypeError: Cannot read properties of undefined (reading 'match')".
Proof.
  split; [cbn; lia|].
  apply (proj2 (getMainFilePath_throws_iff "Error" (Some "/app/main.js") None)).
  cbn. lia.
Defined.

(** X2 on a stack whose third line is a frame of a module's top level,
    which V8 prints without parentheses: the result is [process.argv[1]]. *)
Lemma getMainFilePath_without_paren_witness :
  (nth_error
     (split_lines
        (String.append "Error"
           (String newline
              (String.append "    at getMainFilePath (file:///lib/main.js:16:17)"
                 (String newline "    at file:///lib/main.js:29:18")))))
     2
   = Some "    at file:///lib/main.js:29:18" /\
   all_chars not_paren "    at file:///lib/main.js:29:18" = true) /\
  getMainFilePath
    (String.append "Error"
       (String newline
          (String.append "    at getMainFilePath (file:///lib/main.js:16:17)"
             (String newline "    at file:///lib/main.js:29:18"))))
    (Some "/app/main.js") None
  = Normal (Some "/app/main.js").
Proof.
  split; [split; reflexivity|].
  apply (getMainFilePath_without_paren _ "    at file:///lib/main.js:29:18"
           (Some "/app/main.js") None); reflexivity.
Defined.

(** X3 on a stack whose third line is a frame with parentheses. *)
Lemma getMainFilePath_reads_the_frame_witness :
  (nth_error
     (split_lines
        (String.append "Error"
           (String newline
              (String.append "    at getMainFilePath (/lib/main.js:16:17)"
                 (String newline
                    "    at Object.<anonymous> (/app/main.js:29:18)")))))
     2
   = Some (String.append "    at Object.<anonymous> "
             (String "("%char
                (String.append "/app/main.js"
                   (String ":"%char
                      (String.append "29"
                         (String ":"%char (String.append "18" ")"))))))) /\
   all_chars not_paren "    at Object.<anonymous> " = true /\
   Capture.no_line_terminator "/app/main.js" = true /\
   "29" <> "" /\ all_chars Capture.digit "29" = true /\
   "18" <> "" /\ all_chars Capture.digit "18" = true) /\
  getMainFilePath
    (String.append "Error"
       (String newline
          (String.append "    at getMainFilePath (/lib/main.js:16:17)"
             (String newline
                "    at Object.<anonymous> (/app/main.js:29:18)"))))
    None None
  = Normal (Some "/app/main.js").
Proof.
  split.
  - repeat (split; [first [reflexivity | discriminate]|]). reflexivity.
  - apply (getMainFilePath_reads_the_frame _ "    at Object.<anonymous> "
             "/app/main.js" "29" "18" None None);
      first [reflexivity | discriminate].
Defined.

(** X4: two windows, a file change, the first window closed, a third
    window created. *)
Lemma registry_follows_the_host_witness :
  polite [] []
    [BrowserWindowCreated 1%nat; BrowserWindowCreated 2%nat;
     FileChanged "/app/src/a.js"; Closed 1%nat; BrowserWindowCreated 3%nat]
  = true /\
  browserWindows
    (run "/app" Chokidar.covers_path
       [BrowserWindowCreated 1%nat; BrowserWindowCreated 2%nat;
        FileChanged "/app/src/a.js"; Closed 1%nat; BrowserWindowCreated 3%nat]
       (fst (start "/app/main.js" (String.eqb "/usr/bin/electron")
               ["/app/src"] no_options)))
  = [2%nat; 3%nat].
Proof.
  split; [reflexivity|].
  rewrite (registry_follows_the_host "/app" "/app/main.js"
             (String.eqb "/usr/bin/electron") Chokidar.covers_path
             ["/app/src"] no_options
             [BrowserWindowCreated 1%nat; BrowserWindowCreated 2%nat;
              FileChanged "/app/src/a.js"; Closed 1%nat;
              BrowserWindowCreated 3%nat]
             eq_refl).
  reflexivity.
Defined.

(** X5 on an array that holds one window twice. *)
Lemma onWindowClosed_first_occurrence_witness :
  (browserWindows (set_browserWindows [1%nat; 2%nat; 3%nat; 2%nat] fresh)
   = [1%nat] ++ 2%nat :: [3%nat; 2%nat] /\
   ~ In 2%nat [1%nat]) /\
  browserWindows
    (onWindowClosed 2%nat (set_browserWindows [1%nat; 2%nat; 3%nat; 2%nat] fresh))
  = [1%nat; 3%nat; 2%nat].
Proof.
  assert (H : ~ In 2%nat [1%nat]) by (intros [E|[]]; discriminate E).
  split; [split; [reflexivity|exact H]|].
  apply (proj1 (onWindowClosed_first_occurrence 2%nat [1%nat] [3%nat; 2%nat]
                  (set_browserWindows [1%nat; 2%nat; 3%nat; 2%nat] fresh)
                  eq_refl H)).
Defined.

(** X7 on a window that is created and closed. *)
Lemma window_events_are_silent_witness :
  forallb is_window_event [BrowserWindowCreated 1%nat; Closed 1%nat] = true /\
  effects
    (run "/app" Chokidar.covers_path
       [BrowserWindowCreated 1%nat; Closed 1%nat]
       (fst (start "/app/main.js" (String.eqb "/usr/bin/electron")
               ["/app/src"] no_options)))
  = [].
Proof.
  split; [reflexivity|].
  apply (proj1 (window_events_are_silent "/app" Chokidar.covers_path
                  [BrowserWindowCreated 1%nat; Closed 1%nat]
                  (fst (start "/app/main.js" (String.eqb "/usr/bin/electron")
                          ["/app/src"] no_options))
                  eq_refl)).
Defined.


(** X12: an application that lives below a hidden directory. *)
Lemma hidden_main_file_is_not_watched_witness :
  (ignored (mkOptions (Some "/usr/bin/electron") None None None None None)
   = None /\
   has_inner_dot_segment "/home/me/.config/app/main.js" = true) /\
  tracked_by Chokidar.covers_path the_hardWatcher
    (run "/home/me/.config/app" Chokidar.covers_path
       [BrowserWindowCreated 1%nat]
       (fst (start "/home/me/.config/app/main.js"
               (String.eqb "/usr/bin/electron") ["/home/me/.config/app/src"]
               (mkOptions (Some "/usr/bin/electron") None None None None None))))
    "/home/me/.config/app/main.js"
  = false.
Proof.
  split; [split; reflexivity|].
  apply (proj1 (hidden_main_file_is_not_watched "/home/me/.config/app"
                  "/home/me/.config/app/main.js"
                  (String.eqb "/usr/bin/electron") Chokidar.covers_path
                  ["/home/me/.config/app/src"]
                  (mkOptions (Some "/usr/bin/electron") None None None None None)
                  [BrowserWindowCreated 1%nat] eq_refl (or_intror eq_refl))).
Defined.

(** X13: after the hard reset has fired, a change below the glob still
    reloads the open window. *)
Lemma soft_reload_beside_hard_reset_witness :
  (electron (mkOptions (Some "/usr/bin/electron") None None None None None)
   = Some "/usr/bin/electron" /\
   "/usr/bin/electron" <> "" /\
   String.eqb "/usr/bin/electron" "/usr/bin/electron" = true /\
   JS.strict_eq_true
     (forceHardReset
        (mkOptions (Some "/usr/bin/electron") None None None None None))
   = false) /\
  filter is_reload
    (effects
       (deliver "/app" Chokidar.covers_path (FileChanged "/app/src/a.js")
          (run "/app" Chokidar.covers_path
             [BrowserWindowCreated 1%nat; FileChanged "/app/main.js"]
             (fst (start "/app/main.js" (String.eqb "/usr/bin/electron")
                     ["/app/src"]
                     (mkOptions (Some "/usr/bin/electron") None None None
                                None None))))))
  = [ReloadIgnoringCache 1%nat].
Proof.
  split;
    [split; [reflexivity | split; [discriminate | split; reflexivity]] |].
  rewrite (soft_reload_beside_hard_reset "/app" "/app/main.js"
             (String.eqb "/usr/bin/electron") Chokidar.covers_path
             ["/app/src"]
             (mkOptions (Some "/usr/bin/electron") None None None None None)
             "/usr/bin/electron"
             [BrowserWindowCreated 1%nat; FileChanged "/app/main.js"]
             "/app/src/a.js" eq_refl ltac:(discriminate) eq_refl eq_refl).
  reflexivity.
Defined.

(** X14: the executable [/nonexistent]. *)
Lemma thrown_call_leaves_soft_reset_witness :
  (electron (mkOptions (Some "/nonexistent") None None None None None)
   = Some "/nonexistent" /\
   "/nonexistent" <> "" /\
   String.eqb "/usr/bin/electron" "/nonexistent" = false) /\
  filter is_hard
    (effects
       (run "/app" Chokidar.covers_path
          [BrowserWindowCreated 1%nat; FileChanged "/app/main.js";
           FileChanged "/app/src/a.js"]
          (fst (start "/app/main.js" (String.eqb "/usr/bin/electron")
                  ["/app/src"]
                  (mkOptions (Some "/nonexistent") None None None None None)))))
  = [].
Proof.
  split; [split; [reflexivity | split; [discriminate | reflexivity]] |].
  apply (proj1 (proj2 (thrown_call_leaves_soft_reset "/app" "/app/main.js"
                  (String.eqb "/usr/bin/electron") Chokidar.covers_path
                  ["/app/src"]
                  (mkOptions (Some "/nonexistent") None None None None None)
                  "/nonexistent"
                  [BrowserWindowCreated 1%nat; FileChanged "/app/main.js";
                   FileChanged "/app/src/a.js"]
                  "/app/src/a.js" eq_refl ltac:(discriminate) eq_refl))).
Defined.

(** X15 on an array of three windows. *)
Lemma onWindowClosed_absent_drops_last_witness :
  ~ In 9%nat
      (browserWindows (set_browserWindows [1%nat; 2%nat; 3%nat] fresh)) /\
  browserWindows
    (onWindowClosed 9%nat (set_browserWindows [1%nat; 2%nat; 3%nat] fresh))
  = [1%nat; 2%nat].
Proof.
  assert (H : ~ In 9%nat
                (browserWindows (set_browserWindows [1%nat; 2%nat; 3%nat] fresh)))
    by (intros [E|[E|[E|[]]]]; discriminate E).
  split; [exact H|].
  apply (proj1 (onWindowClosed_absent_drops_last 9%nat
                  (set_browserWindows [1%nat; 2%nat; 3%nat] fresh) H)).
Defined.
